(** * The QR code adapter of the gift-card theme, and the symbol encoder it wraps

    The repository's QR code path is the adapter module [assets/qr-code/adapter.js]
    (specified, with its code and its tests, in [specs/qr_code_audit.md]): the
    functions [generateQRCode], [getTypeNumberForData], [errorCorrectionToLevel]
    and [drawQRCodeOnCanvas].  The adapter drives the legacy encoder
    [assets/qr-code-generator.js] through six methods; the legacy encoder is
    taken here as an interface ([LegacyQRCode]), and the parts of it that the
    encoder specification describes (capacity table, numeric packing, symbol
    side, mask choice) are modelled from that specification in [SymbolSpec]. *)

From Stdlib Require Import ZArith NArith List Bool String Ascii Lia.
Import ListNotations.
Local Open Scope Z_scope.

(* ===================================================================== *)
(** ** JavaScript values, strings and completions *)
(* ===================================================================== *)

Module JS.

(** A JavaScript string is a sequence of UTF-16 code units; [length] is
    [data.length]. *)
Definition JSString : Type := list N.

(** The string literal written in the source, as code units (the literals of
    the adapter are ASCII). *)
Definition js (s : string) : JSString :=
  List.map N_of_ascii (list_ascii_of_string s).

(** [a === b] on strings. *)
Fixpoint strEq (a b : JSString) : bool :=
  match a, b with
  | [], [] => true
  | x :: a', y :: b' => N.eqb x y && strEq a' b'
  | _, _ => false
  end.

Fixpoint startsWith (p s : JSString) : bool :=
  match p, s with
  | [], _ => true
  | x :: p', y :: s' => N.eqb x y && startsWith p' s'
  | _ :: _, [] => false
  end.

(** [s.includes(p)]: [p] occurs in [s] at some offset. *)
Fixpoint includes (p s : JSString) : bool :=
  startsWith p s ||
  match s with
  | [] => false
  | _ :: s' => includes p s'
  end.

(** [array.includes(x)] on an array of strings. *)
Definition arrayIncludes (xs : list JSString) (x : JSString) : bool :=
  existsb (strEq x) xs.

(** [array.join(sep)]. *)
Fixpoint join (sep : JSString) (xs : list JSString) : JSString :=
  match xs with
  | [] => []
  | [x] => x
  | x :: rest => x ++ sep ++ join sep rest
  end.

(** The code units [String.prototype.trim] strips: ECMAScript WhiteSpace
    (TAB, VT, FF, SP, NBSP, ZWNBSP and the Unicode space separators) and
    LineTerminator (LF, CR, LS, PS). *)
Definition isWhiteSpace (c : N) : bool :=
  match c with
  | 9 | 10 | 11 | 12 | 13 | 32 | 160 | 5760
  | 8192 | 8193 | 8194 | 8195 | 8196 | 8197 | 8198 | 8199 | 8200 | 8201 | 8202
  | 8232 | 8233 | 8239 | 8287 | 12288 | 65279 => true
  | _ => false
  end%N.

Fixpoint trimStart (s : JSString) : JSString :=
  match s with
  | [] => []
  | c :: s' => if isWhiteSpace c then trimStart s' else s
  end.

Definition trimEnd (s : JSString) : JSString := rev (trimStart (rev s)).

(** [s.trim()]. *)
Definition trim (s : JSString) : JSString := trimEnd (trimStart s).

(** A string is falsy exactly when it is empty. *)
Definition isEmpty (s : JSString) : bool :=
  match s with [] => true | _ :: _ => false end.

(** Numbers: the integers, and NaN (fractions and infinities are not
    represented). *)
Inductive JSNumber : Type :=
| Int (z : Z)
| NaN.

(** The values a caller can pass for [data]. *)
Inductive JSValue : Type :=
| VUndefined
| VNull
| VBool (b : bool)
| VNumber (n : JSNumber)
| VString (s : JSString).

(** A thrown [new Error(message)]; what is thrown is taken to be an [Error]
    object, whose [message] the [catch] block of the adapter reads. *)
Record JSError : Type := Error { message : JSString }.

(** How a call ends: [return a] or [throw e]. *)
Inductive Completion (A : Type) : Type :=
| Return (a : A)
| Throw (e : JSError).

Arguments Return {A} a.
Arguments Throw {A} e.

Definition bind {A B : Type} (c : Completion A) (k : A -> Completion B)
  : Completion B :=
  match c with
  | Return a => k a
  | Throw e => Throw e
  end.

(** [try { body } catch (error) { handler }]. *)
Definition tryCatch {A : Type} (body : Completion A)
  (handler : JSError -> Completion A) : Completion A :=
  match body with
  | Return a => Return a
  | Throw e => handler e
  end.

End JS.

Import JS.

Declare Scope js_scope.
Delimit Scope js_scope with js.
Notation "x <- c ;; k" := (bind c (fun x => k))
  (at level 61, c at next level, right associativity) : js_scope.

(* ===================================================================== *)
(** ** What the adapter is given: the legacy encoder and the page *)
(* ===================================================================== *)

(** The class [QRCode] of [assets/qr-code-generator.js], as the adapter uses
    it.  The object is mutable: a method returns the object after the call, or
    throws.  [getModuleCount] and [isDark] read a made symbol and are taken
    not to throw. *)
Record LegacyQRCode : Type := {
  qrcode : Type;
  newQRCode : Completion qrcode;
  setTypeNumber : qrcode -> Z -> Completion qrcode;
  setErrorCorrectLevel : qrcode -> Z -> Completion qrcode;
  addData : qrcode -> JSString -> Completion qrcode;
  make : qrcode -> Completion qrcode;
  getModuleCount : qrcode -> Z;
  isDark : qrcode -> Z -> Z -> bool
}.

(** The page: whether [canvas.getContext('2d')] yields a context (it yields
    [null] otherwise). *)
Record Page : Type := { has2dContext : bool }.

(** The drawing calls made on the 2d context, in order. *)
Inductive DrawOp : Type :=
| fillStyle (color : JSString)
| fillRect (x y w h : Z).

(** The canvas element the adapter returns: the [width] and [height] it
    assigned, and what it drew. *)
Record Canvas : Type := {
  width : Z;
  height : Z;
  drawn : list DrawOp
}.

(** The [options] object.  [size] and [errorCorrection] are typed as the
    JSDoc of [generateQRCode] types them (a number, a string); [None] is an
    absent key.  [forcedVersion] is a key of the encoder specification's
    options; the adapter never reads it. *)
Record Options : Type := {
  size : option JSNumber;
  errorCorrection : option JSString;
  forcedVersion : option Z
}.

(** [{}], the default of the parameter. *)
Definition noOptions : Options :=
  {| size := None; errorCorrection := None; forcedVersion := None |}.

(* ===================================================================== *)
(** ** The adapter *)
(* ===================================================================== *)

Module Adapter.

Local Open Scope js_scope.

(** [function getTypeNumberForData(data)]: the type number from the length
    alone. *)
Definition getTypeNumberForData (data : JSString) : Z :=
  let len := Z.of_nat (List.length data) in
  if len <=? 41 then 1
  else if len <=? 77 then 2
  else if len <=? 127 then 3
  else if len <=? 187 then 4
  else if len <=? 255 then 5
  else if len <=? 322 then 6
  else if len <=? 370 then 7
  else 10.

(** [function errorCorrectionToLevel(level)]: [mapping[level] ?? 0] with
    [mapping = { L: 1, M: 0, Q: 3, H: 2 }].  (Keys inherited from
    [Object.prototype] are not modelled; [generateQRCode] passes one of the
    four levels only.) *)
Definition errorCorrectionToLevel (level : JSString) : Z :=
  if strEq level (js "L") then 1
  else if strEq level (js "M") then 0
  else if strEq level (js "Q") then 3
  else if strEq level (js "H") then 2
  else 0.

(** [options.size || 300]. *)
Definition sizeOrDefault (s : option JSNumber) : Z :=
  match s with
  | Some (Int n) => if n =? 0 then 300 else n
  | Some NaN => 300
  | None => 300
  end.

(** [options.errorCorrection || 'M']. *)
Definition errorCorrectionOrDefault (e : option JSString) : JSString :=
  match e with
  | Some s => if isEmpty s then js "M" else s
  | None => js "M"
  end.

Definition validLevels : list JSString := [js "L"; js "M"; js "H"; js "Q"].

Definition nonEmptyMessage : JSString :=
  js "QR code data must be non-empty string".

Definition tooLongMessage : JSString :=
  js "QR code data too long (max 2953 characters)".

Definition invalidLevelMessage : JSString :=
  js "Invalid error correction level. Expected one of: "
  ++ join (js ", ") validLevels.

Definition noContextMessage : JSString := js "Could not get canvas context".

(** [for (let i = 0; i < n; i++)]: the values [i] takes. *)
Definition upTo (n : Z) : list Z :=
  List.map Z.of_nat (seq 0 (Z.to_nat n)).

Section WithLegacy.

Variable Q : LegacyQRCode.
Variable page : Page.

(** [function drawQRCodeOnCanvas(ctx, qr, size)].  [Math.floor(size /
    moduleCount)] is [Z.div] for a positive module count; with a module count
    of zero or less no module is visited and the quotient is not used. *)
Definition drawQRCodeOnCanvas (qr : qrcode Q) (size : Z) : list DrawOp :=
  let moduleCount := getModuleCount Q qr in
  let moduleSize := size / moduleCount in
  [fillStyle (js "#ffffff"); fillRect 0 0 size size; fillStyle (js "#000000")]
  ++ flat_map (fun row =>
       flat_map (fun col =>
         if isDark Q qr row col
         then [fillRect (col * moduleSize) (row * moduleSize)
                        moduleSize moduleSize]
         else [])
       (upTo moduleCount))
     (upTo moduleCount).

(** The first five statements of the [try] block of [generateQRCode]: the
    legacy object is created, configured, fed and made. *)
Definition makeSymbol (data errorCorrection : JSString)
  : Completion (qrcode Q) :=
  qr <- newQRCode Q ;;
  qr <- setTypeNumber Q qr (getTypeNumberForData data) ;;
  qr <- setErrorCorrectLevel Q qr (errorCorrectionToLevel errorCorrection) ;;
  qr <- addData Q qr data ;;
  make Q qr.

(** The [catch (error)] block of [generateQRCode]. *)
Definition rethrowOrWrap (error : JSError) : Completion Canvas :=
  if includes (js "QR code") (message error)
  then Throw error
  else Throw (Error (js "Failed to generate QR code: " ++ message error)).

(** The rest of the [try] block: the canvas is created, given its size, and
    drawn on through its 2d context. *)
Definition renderSymbol (size : Z) (qr : qrcode Q) : Completion Canvas :=
  if has2dContext page
  then Return {| width := size; height := size;
                 drawn := drawQRCodeOnCanvas qr size |}
  else Throw (Error noContextMessage).

(** [export function generateQRCode(data, options = {})]. *)
Definition generateQRCode (data : JSValue) (options : Options)
  : Completion Canvas :=
  match data with
  | VString data =>
    if isEmpty (trim data) then Throw (Error nonEmptyMessage)
    else if Z.of_nat (List.length data) >? 2953
    then Throw (Error tooLongMessage)
    else
      let size := sizeOrDefault (size options) in
      let errorCorrection :=
        errorCorrectionOrDefault (errorCorrection options) in
      if negb (arrayIncludes validLevels errorCorrection)
      then Throw (Error invalidLevelMessage)
      else
        tryCatch
          (qr <- makeSymbol data errorCorrection ;; renderSymbol size qr)
          rethrowOrWrap
  | _ => Throw (Error nonEmptyMessage)
  end.

End WithLegacy.

End Adapter.

Import Adapter.

(* ===================================================================== *)
(** ** The symbol encoder, as its specification describes it *)
(* ===================================================================== *)

(** The encoder itself ([assets/qr-code-generator.js]) is not among the
    sources.  The definitions of this module follow the encoder specification
    (sections 3, 4.1, 4.2 and 4.5); where the specification names a table or a
    field of the QR Code standard without printing it, the standard's value
    (ISO/IEC 18004) is used and said so. *)
Module SymbolSpec.

(** Modelled from the spec: the ErrorCorrectionLevel of section 3, "one of
    {L, M, Q, H}", in increasing strength. *)
Inductive ErrorCorrectionLevel : Type := LevelL | LevelM | LevelQ | LevelH.

Definition strength (l : ErrorCorrectionLevel) : Z :=
  match l with LevelL => 0 | LevelM => 1 | LevelQ => 2 | LevelH => 3 end.

(** The option letter of a level. *)
Definition levelName (l : ErrorCorrectionLevel) : JSString :=
  match l with
  | LevelL => js "L" | LevelM => js "M" | LevelQ => js "Q" | LevelH => js "H"
  end.

(** Modelled from the spec: "Version: an integer in [1, 40] denoting the
    symbol's side length (side = 4 * version + 17 modules)". *)
Definition sideLength (version : Z) : Z := 4 * version + 17.

Definition versions : list Z := List.map Z.of_nat (seq 1 40).

(** Modelled from the spec: the "standard per-version/level table" of
    section 3, which the repository keeps in the legacy encoder.  Row [v] gives
    the number of data codewords of version [v] at levels L, M, Q and H
    (ISO/IEC 18004, table 7). *)
Definition dataCodewordTable : list (Z * Z * Z * Z) :=
  [ (19, 16, 13, 9);         (34, 28, 22, 16);
    (55, 44, 34, 26);        (80, 64, 48, 36);
    (108, 86, 62, 46);       (136, 108, 76, 60);
    (156, 124, 88, 66);      (194, 154, 110, 86);
    (232, 182, 132, 100);    (274, 216, 154, 122);
    (324, 254, 180, 140);    (370, 290, 206, 158);
    (428, 334, 244, 180);    (461, 365, 261, 197);
    (523, 415, 295, 223);    (589, 453, 325, 253);
    (647, 507, 367, 283);    (721, 563, 397, 313);
    (795, 627, 445, 341);    (861, 669, 485, 385);
    (932, 714, 512, 406);    (1006, 782, 568, 442);
    (1094, 860, 614, 464);   (1174, 914, 664, 514);
    (1276, 1000, 718, 538);  (1370, 1062, 754, 596);
    (1468, 1128, 808, 628);  (1531, 1193, 871, 661);
    (1631, 1267, 911, 701);  (1735, 1373, 985, 745);
    (1843, 1455, 1033, 793); (1955, 1541, 1115, 845);
    (2071, 1631, 1171, 901); (2191, 1725, 1231, 961);
    (2306, 1812, 1286, 986); (2434, 1914, 1354, 1054);
    (2566, 1992, 1426, 1096); (2702, 2102, 1502, 1142);
    (2812, 2216, 1582, 1222); (2956, 2334, 1666, 1276) ].

Definition dataCodewords (version : Z) (level : ErrorCorrectionLevel) : Z :=
  if version <? 1 then 0
  else
    match nth_error dataCodewordTable (Z.to_nat (version - 1)) with
    | Some (l, m, q, h) =>
      match level with
      | LevelL => l | LevelM => m | LevelQ => q | LevelH => h
      end
    | None => 0
    end.

(** The capacity of a version at a level, in bits ("Codeword: an 8-bit
    unit"). *)
Definition capacityBits (version : Z) (level : ErrorCorrectionLevel) : Z :=
  8 * dataCodewords version level.

(** [width] bits of [value], most significant first. *)
Definition toBits (width : nat) (value : Z) : list bool :=
  List.map (fun i => Z.testbit value (Z.of_nat i)) (rev (seq 0 width)).

(** The decimal digits of a payload that is a pure digit run. *)
Fixpoint digitsOf (payload : JSString) : option (list Z) :=
  match payload with
  | [] => Some []
  | c :: rest =>
    if (N.leb 48 c && N.leb c 57)%bool
    then option_map (cons (Z.of_N c - 48)) (digitsOf rest)
    else None
  end.

(** Modelled from the spec (4.2): "digits packed 3-per-10-bits (2 leftover
    digits -> 7 bits, 1 leftover -> 4 bits)". *)
Fixpoint packDigits (digits : list Z) : list bool :=
  match digits with
  | a :: b :: c :: rest => toBits 10 (100 * a + 10 * b + c) ++ packDigits rest
  | [a; b] => toBits 7 (10 * a + b)
  | [a] => toBits 4 a
  | [] => []
  end.

(** Modelled from the spec (4.1): the length field of a Numeric segment, whose
    width grows over the version tiers 1-9, 10-26 and 27-40; the widths are the
    standard's 10, 12 and 14 bits. *)
Definition lengthFieldWidth (version : Z) : nat :=
  if version <=? 9 then 10%nat
  else if version <=? 26 then 12%nat
  else 14%nat.

(** Modelled from the spec (4.2): the Numeric segment of a pure digit run, "a
    4-bit mode indicator, a length field ..., then the packed payload"; the
    indicator of Numeric mode is the standard's 0001. *)
Definition numericSegment (version : Z) (digits : list Z) : list bool :=
  toBits 4 1
  ++ toBits (lengthFieldWidth version) (Z.of_nat (List.length digits))
  ++ packDigits digits.

(** Modelled from the spec (4.1): the bits a version must hold, the segment
    with the 4-bit terminator, rounded up to a byte boundary. *)
Definition requiredBits (version : Z) (digits : list Z) : Z :=
  8 * ((Z.of_nat (List.length (numericSegment version digits)) + 4 + 7) / 8).

Definition suffices (level : ErrorCorrectionLevel) (digits : list Z)
  (version : Z) : bool :=
  requiredBits version digits <=? capacityBits version level.

(** Modelled from the spec (4.1): the Capacity Planner on a pure digit run,
    "iterate versions 1..40 in increasing order ... select the smallest
    version whose total codeword capacity at the requested level is >= the
    required bits"; [None] is the planner's DataTooLong. *)
Definition planVersion (level : ErrorCorrectionLevel) (digits : list Z)
  : option Z :=
  find (suffices level digits) versions.

(** Modelled from the spec (4.5): the Mask Selector, "select the mask index
    with the lowest total penalty (ties broken by lowest index)" among the
    eight candidates.  The penalty rules and the mask formulas are the
    parameters [penalty] and [applyMask]. *)
Definition lowestPenalty (score : nat -> Z) (candidates : list nat)
  (first : nat) : nat :=
  fold_left (fun best i => if score i <? score best then i else best)
            candidates first.

Definition selectMask {Matrix : Type} (penalty : Matrix -> Z)
  (applyMask : nat -> Matrix -> Matrix) (unmasked : Matrix) : nat :=
  lowestPenalty (fun i => penalty (applyMask i unmasked)) (seq 1 7) 0%nat.

End SymbolSpec.

Import SymbolSpec.

(* ===================================================================== *)
(** ** A recording encoder *)
(* ===================================================================== *)

(** A stand-in for the legacy encoder that only records what it is asked: the
    type number and level set, the data added, whether [make] ran.  Its symbol
    has the side of its type number and no dark module.  It makes the
    adapter's requests observable. *)
Record Request : Type := {
  typeNumber : option Z;
  errorCorrectLevel : option Z;
  dataList : list JSString;
  made : bool
}.

Definition Recorder : LegacyQRCode := {|
  qrcode := Request;
  newQRCode :=
    Return {| typeNumber := None; errorCorrectLevel := None;
              dataList := []; made := false |};
  setTypeNumber q t :=
    Return {| typeNumber := Some t; errorCorrectLevel := errorCorrectLevel q;
              dataList := dataList q; made := made q |};
  setErrorCorrectLevel q l :=
    Return {| typeNumber := typeNumber q; errorCorrectLevel := Some l;
              dataList := dataList q; made := made q |};
  addData q d :=
    Return {| typeNumber := typeNumber q;
              errorCorrectLevel := errorCorrectLevel q;
              dataList := dataList q ++ [d]; made := made q |};
  make q :=
    Return {| typeNumber := typeNumber q;
              errorCorrectLevel := errorCorrectLevel q;
              dataList := dataList q; made := true |};
  getModuleCount q :=
    match typeNumber q with Some t => sideLength t | None => 0 end;
  isDark _ _ _ := false
|}.

(** What the adapter asks of the encoder for a payload and a level option. *)
Definition requested (data errorCorrection : JSString) : Completion Request :=
  makeSymbol Recorder data errorCorrection.

(** The type number the adapter selects for a payload when the caller
    requests [level]. *)
Definition selectedVersion (data : JSString) (level : ErrorCorrectionLevel)
  : option Z :=
  match requested data (levelName level) with
  | Return q => typeNumber q
  | Throw _ => None
  end.

Definition browser : Page := {| has2dContext := true |}.

(** Payloads of the examples. *)
Definition digitRun (n : nat) : JSString := repeat 48%N n.
Definition giftCode : JSString := js "ABC123XYZ".
Definition withLevel (l : JSString) : Options :=
  {| size := None; errorCorrection := Some l; forcedVersion := None |}.
Definition withSize (n : JSNumber) : Options :=
  {| size := Some n; errorCorrection := None; forcedVersion := None |}.

(** A bit string written with the characters 0 and 1. *)
Definition bitString (s : string) : list bool :=
  List.map (fun c => Ascii.eqb c "1"%char) (list_ascii_of_string s).

(** A payload [trim] empties: every code unit is white space. *)
Definition isBlank (data : JSString) : bool := forallb isWhiteSpace data.

(** The level the adapter works with for an options value. *)
Definition levelOption (options : Options) : JSString :=
  errorCorrectionOrDefault (errorCorrection options).

(** What [getTypeNumberForData] asks of a length for each type number it can
    return. *)
Definition lengthRange (typeNo len : Z) : Prop :=
  match typeNo with
  | 1 => len <= 41
  | 2 => 41 < len <= 77
  | 3 => 77 < len <= 127
  | 4 => 127 < len <= 187
  | 5 => 187 < len <= 255
  | 6 => 255 < len <= 322
  | 7 => 322 < len <= 370
  | 10 => 370 < len
  | _ => False
  end.

(* ===================================================================== *)
(** ** The other exports of the adapter *)
(* ===================================================================== *)

(** A canvas element with what its users set on it after
    [generateQRCode] returned it: the class, the attributes in the order they
    were set, and the inline style. *)
Record CanvasElement : Type := {
  canvasOf : Canvas;
  className : JSString;
  attributes : list (JSString * JSString);
  style : list (JSString * JSString)
}.

(** The children an element of the page can have here: a canvas, a [div] with
    its class and text, or anything else. *)
Inductive Node : Type :=
| CanvasNode (c : CanvasElement)
| DivNode (cls text : JSString)
| OtherNode.

Definition containerMessage : JSString :=
  js "Container must be a valid DOM element".

(** [data.substring(0, 50)]. *)
Definition substring0 (n : nat) (s : JSString) : JSString := firstn n s.

Module Exports.

Local Open Scope js_scope.

Section WithLegacy.

Variable Q : LegacyQRCode.
Variable page : Page.

(** [canvas.toDataURL('image/png')], which the browser computes. *)
Variable toDataURL : Canvas -> JSString.

(** [export function generateQRCodeDataURL(data, options = {})]. *)
Definition generateQRCodeDataURL (data : JSValue) (options : Options)
  : Completion JSString :=
  canvas <- generateQRCode Q page data options ;;
  Return (toDataURL canvas).

(** [export function renderQRCodeToContainer(data, container, options = {})].
    The container is [None] when it is falsy or no [Element], and otherwise
    the list of its children; the outcome is the list of its children after
    the call.  ([data.substring] of a value that is no string is a
    [TypeError]; [generateQRCode] has thrown before.) *)
Definition renderQRCodeToContainer (data : JSValue)
  (container : option (list Node)) (options : Options)
  : Completion (list Node) :=
  match container with
  | None => Throw (Error containerMessage)
  | Some children =>
    canvas <- generateQRCode Q page data options ;;
    match data with
    | VString text =>
      Return (children ++
        [CanvasNode
           {| canvasOf := canvas;
              className := js "qr-code__canvas";
              attributes :=
                [(js "aria-label", js "QR code for: " ++ substring0 50 text);
                 (js "role", js "img")];
              style := [] |}])
    | _ => Throw (Error (js "data.substring is not a function"))
    end
  end.

End WithLegacy.

End Exports.

Import Exports.

(* ===================================================================== *)
(** ** The component [<qr-code-image>] *)
(* ===================================================================== *)

Module Component.

(** The value of a digit or letter as a digit of a numeral: 0-9, and a-z or
    A-Z for 10 to 35. *)
Definition digitValue (c : N) : option Z :=
  if (N.leb 48 c && N.leb c 57)%bool then Some (Z.of_N c - 48)
  else if (N.leb 97 c && N.leb c 122)%bool then Some (Z.of_N c - 87)
  else if (N.leb 65 c && N.leb c 90)%bool then Some (Z.of_N c - 55)
  else None.

Definition radixDigit (radix : Z) (c : N) : option Z :=
  match digitValue c with
  | Some d => if d <? radix then Some d else None
  | None => None
  end.

(** The digits at the start of a string, up to the first code unit that is
    no digit of the radix. *)
Fixpoint leadingDigits (radix : Z) (s : JSString) : list Z :=
  match s with
  | [] => []
  | c :: rest =>
    match radixDigit radix c with
    | Some d => d :: leadingDigits radix rest
    | None => []
    end
  end.

Definition numeralValue (radix : Z) (ds : list Z) : Z :=
  fold_left (fun acc d => acc * radix + d) ds 0.

(** [parseInt(string)] with no radix (ECMAScript 19.2.5): leading white space
    is skipped, a sign is read, a prefix [0x] or [0X] makes the radix 16, and
    the longest run of digits is the value; with no digit the result is NaN.
    The value is exact here; a JavaScript number is, below 2^53.  The sign of
    a zero is not represented. *)
Definition parseInt (string : JSString) : JSNumber :=
  let S := trimStart string in
  let sign := match S with
              | c :: _ => if N.eqb c 45 then -1 else 1
              | [] => 1
              end in
  let S := match S with
           | c :: rest => if (N.eqb c 43 || N.eqb c 45)%bool then rest else S
           | [] => S
           end in
  let RS := match S with
            | c :: x :: rest =>
              if (N.eqb c 48 && (N.eqb x 120 || N.eqb x 88))%bool
              then (16, rest)
              else (10, S)
            | _ => (10, S)
            end in
  match leadingDigits (fst RS) (snd RS) with
  | [] => NaN
  | ds => Int (sign * numeralValue (fst RS) ds)
  end.

(** [this.getAttribute(name) || fallback]: [getAttribute] gives [null] for a
    missing attribute. *)
Definition attributeOr (a : option JSString) (fallback : JSString)
  : JSString :=
  match a with
  | Some s => if isEmpty s then fallback else s
  | None => fallback
  end.

(** The element: its three observed attributes and its children. *)
Record QRCodeImage : Type := {
  dataAttribute : option JSString;
  sizeAttribute : option JSString;
  errorCorrectionAttribute : option JSString;
  children : list Node
}.

Definition requiredMessage : JSString :=
  js "QR code data attribute is required".

Definition failedMessage : JSString := js "Failed to generate QR code".

Definition withChildren (el : QRCodeImage) (nodes : list Node)
  : QRCodeImage :=
  {| dataAttribute := dataAttribute el;
     sizeAttribute := sizeAttribute el;
     errorCorrectionAttribute := errorCorrectionAttribute el;
     children := nodes |}.

(** [showError(message)]: the element's content is replaced by one [div]. *)
Definition showError (message : JSString) (el : QRCodeImage) : QRCodeImage :=
  withChildren el [DivNode (js "qr-code-image--error") message].

(** The canvas with the inline style [render] gives it. *)
Definition styled (canvas : Canvas) : CanvasElement :=
  {| canvasOf := canvas;
     className := [];
     attributes := [];
     style := [(js "display", js "block");
               (js "margin", js "0 auto");
               (js "border", js "1px solid #ccc")] |}.

Section WithLegacy.

Variable Q : LegacyQRCode.
Variable page : Page.

(** [render()].  The outcome is the element after the call and what the call
    wrote with [console.error]. *)
Definition render (el : QRCodeImage) : QRCodeImage * list JSError :=
  let data := dataAttribute el in
  let size := parseInt (attributeOr (sizeAttribute el) (js "300")) in
  let errorCorrection :=
    attributeOr (errorCorrectionAttribute el) (js "M") in
  match data with
  | None => (showError requiredMessage el, [])
  | Some text =>
    if isEmpty text then (showError requiredMessage el, [])
    else
      match generateQRCode Q page (VString text)
              {| size := Some size;
                 errorCorrection := Some errorCorrection;
                 forcedVersion := None |} with
      | Return canvas =>
        (withChildren (withChildren el []) [CanvasNode (styled canvas)], [])
      | Throw error =>
        (showError failedMessage (withChildren el []), [error])
      end
  end.

(** [connectedCallback()] and [attributeChangedCallback()]. *)
Definition connectedCallback (el : QRCodeImage) : QRCodeImage * list JSError :=
  render el.

Definition attributeChangedCallback (el : QRCodeImage)
  : QRCodeImage * list JSError :=
  render el.

End WithLegacy.

End Component.

Import Component.

(** A stand-in for the legacy encoder whose symbol has the side of its type
    number and is a chequerboard: module (row, col) is dark when row + col is
    even. *)
Definition Checker : LegacyQRCode := {|
  qrcode := Z;
  newQRCode := Return 0;
  setTypeNumber _ t := Return t;
  setErrorCorrectLevel q _ := Return q;
  addData q _ := Return q;
  make q := Return q;
  getModuleCount q := sideLength q;
  isDark _ row col := Z.even (row + col)
|}.

Definition noContext : Page := {| has2dContext := false |}.

(** The place and extent of a rectangle drawn. *)
Definition within (size : Z) (op : DrawOp) : Prop :=
  match op with
  | fillStyle _ => True
  | fillRect x y w h =>
    0 <= x /\ 0 <= y /\ 0 <= w /\ 0 <= h /\ x + w <= size /\ y + h <= size
  end.


(** The calls of [drawQRCodeOnCanvas] after the background and the two
    colours: those of the loop over the modules. *)
Definition moduleRects (ops : list DrawOp) : list DrawOp := skipn 3 ops.



(** [canvas.width] and [canvas.height] as the page reads them back from the
    element.  The two properties are of IDL type unsigned long and reflect the
    content attributes of the [canvas] element, whose defaults are 300 and 150
    (HTML standard): the integer assigned is taken modulo 2^32, is kept when
    it is below 2^31, and is replaced by the default otherwise. *)
Definition reflectedDimension (default assigned : Z) : Z :=
  let n := assigned mod 2 ^ 32 in
  if n <? 2 ^ 31 then n else default.

Definition canvasWidth (c : Canvas) : Z := reflectedDimension 300 (width c).

Definition canvasHeight (c : Canvas) : Z := reflectedDimension 150 (height c).

(** The property names that the object [mapping] of [errorCorrectionToLevel]
    inherits from [Object.prototype] (ECMAScript, properties of the Object
    prototype object).  For these [mapping[level]] is the inherited member and
    not [undefined]; [errorCorrectionToLevel] as defined above says nothing of
    them. *)
Definition inheritedKeys : list JSString :=
  [js "constructor"; js "hasOwnProperty"; js "isPrototypeOf";
   js "propertyIsEnumerable"; js "toLocaleString"; js "toString";
   js "valueOf"; js "__proto__"; js "__defineGetter__";
   js "__defineSetter__"; js "__lookupGetter__"; js "__lookupSetter__"].



(** The error of an outcome, if it is one. *)
Definition thrown {A : Type} (c : Completion A) : option JSError :=
  match c with
  | Return _ => None
  | Throw e => Some e
  end.

(** The code units of a decimal numeral. *)
Definition numeral (ds : list Z) : JSString :=
  List.map (fun d => Z.to_N (d + 48)) ds.

Definition isDecimalDigit (c : N) : bool := (N.leb 48 c && N.leb c 57)%bool.

(** The options object [{ size, errorCorrection }] that [render] hands to
    [generateQRCode]. *)
Definition optionsOfElement (el : QRCodeImage) : Options :=
  {| size := Some (parseInt (attributeOr (sizeAttribute el) (js "300")));
     errorCorrection :=
       Some (attributeOr (errorCorrectionAttribute el) (js "M"));
     forcedVersion := None |}.

(** The [div] that [showError] makes. *)
Definition errorDiv (message : JSString) : Node :=
  DivNode (js "qr-code-image--error") message.

(** The [aria-label] of the canvas of [renderQRCodeToContainer]. *)
Definition ariaLabel (text : JSString) : JSString :=
  js "QR code for: " ++ substring0 50 text.

(** What follows a decimal numeral ends it: nothing, or a code unit that is
    no decimal digit. *)
Definition endsNumeral (suffix : JSString) : Prop :=
  match suffix with
  | [] => True
  | c :: _ => isDecimalDigit c = false
  end.

(** A size attribute in which [parseInt] finds no number: it is missing, or
    after its leading white space it is over or goes on with a code unit
    that is no decimal digit and no sign. *)
Definition unreadableSize (a : option JSString) : Prop :=
  match a with
  | None => True
  | Some s =>
    match trimStart s with
    | [] => True
    | c :: _ => isDecimalDigit c = false /\ c <> 43%N /\ c <> 45%N
    end
  end.

(** An element as it is created: the attributes given, no child. *)
Definition element (data size level : option JSString) : QRCodeImage :=
  {| dataAttribute := data; sizeAttribute := size;
     errorCorrectionAttribute := level; children := [] |}.

(* ===================================================================== *)
(** ** Strings *)
(* ===================================================================== *)

Lemma strEq_true_iff (a b : JSString) : strEq a b = true <-> a = b.
Proof.
  revert b; induction a as [|x a IH]; intros [|y b]; simpl;
    try (split; [discriminate | congruence]); try tauto.
  rewrite andb_true_iff, N.eqb_eq, IH.
  split; [intros [-> ->]; reflexivity | intros E; inversion E; auto].
Qed.

Lemma strEq_refl (a : JSString) : strEq a a = true.
Proof. apply strEq_true_iff; reflexivity. Qed.

Lemma arrayIncludes_In (xs : list JSString) (x : JSString) :
  arrayIncludes xs x = true <-> In x xs.
Proof.
  unfold arrayIncludes. rewrite existsb_exists. split.
  - intros (y & Hy & E). apply strEq_true_iff in E. subst; assumption.
  - intros H. exists x. split; [assumption | apply strEq_refl].
Qed.

Lemma trimStart_nil_iff (s : JSString) :
  trimStart s = [] <-> isBlank s = true.
Proof.
  unfold isBlank. induction s as [|c s IH]; simpl; [tauto|].
  destruct (isWhiteSpace c); simpl; [exact IH|].
  split; discriminate.
Qed.

Lemma trimStart_head (s : JSString) (c : N) (t : JSString) :
  trimStart s = c :: t -> isWhiteSpace c = false.
Proof.
  induction s as [|d s IH]; simpl; [discriminate|].
  destruct (isWhiteSpace d) eqn:E; [exact IH|].
  intros H; inversion H; subst; assumption.
Qed.

Lemma isBlank_rev (s : JSString) : isBlank (rev s) = isBlank s.
Proof.
  unfold isBlank. destruct (forallb isWhiteSpace s) eqn:E.
  - rewrite forallb_forall in *. intros x Hx. apply E, in_rev, Hx.
  - destruct (forallb isWhiteSpace (rev s)) eqn:E'; [|reflexivity].
    rewrite <- E. symmetry. rewrite forallb_forall in *.
    intros x Hx. apply E'. rewrite <- in_rev. exact Hx.
Qed.

(** [!data.trim()] holds exactly for the blank payloads. *)
Lemma trim_empty_iff (s : JSString) :
  isEmpty (trim s) = true <-> isBlank s = true.
Proof.
  unfold trim, trimEnd.
  assert (Hnil : forall l : JSString, isEmpty l = true <-> l = []).
  { intros [|? ?]; simpl; split; congruence. }
  rewrite Hnil. split.
  - intros H. apply (f_equal (@rev N)) in H. rewrite rev_involutive in H.
    simpl in H. apply trimStart_nil_iff in H. rewrite isBlank_rev in H.
    destruct (trimStart s) as [|c t] eqn:E.
    + apply trimStart_nil_iff; assumption.
    + apply trimStart_head in E. simpl in H. rewrite E in H. discriminate.
  - intros H. apply trimStart_nil_iff in H. rewrite H. reflexivity.
Qed.

Lemma trim_empty_false (s : JSString) :
  isBlank s = false -> isEmpty (trim s) = false.
Proof.
  intros H. destruct (isEmpty (trim s)) eqn:E; [|reflexivity].
  apply trim_empty_iff in E. congruence.
Qed.

(* ===================================================================== *)
(** ** The guards of [generateQRCode], one by one *)
(* ===================================================================== *)

Section Guards.

Variable Q : LegacyQRCode.
Variable page : Page.

Lemma generateQRCode_blank (data : JSString) (options : Options) :
  isBlank data = true ->
  generateQRCode Q page (VString data) options = Throw (Error nonEmptyMessage).
Proof.
  intros H. apply trim_empty_iff in H. unfold generateQRCode.
  rewrite H. reflexivity.
Qed.

Lemma generateQRCode_too_long (data : JSString) (options : Options) :
  isBlank data = false ->
  2953 < Z.of_nat (List.length data) ->
  generateQRCode Q page (VString data) options = Throw (Error tooLongMessage).
Proof.
  intros Hb Hl. unfold generateQRCode.
  rewrite (trim_empty_false _ Hb).
  destruct (Z.gtb_spec (Z.of_nat (List.length data)) 2953); [reflexivity | lia].
Qed.

Lemma generateQRCode_invalid_level (data : JSString) (options : Options) :
  isBlank data = false ->
  Z.of_nat (List.length data) <= 2953 ->
  arrayIncludes validLevels (levelOption options) = false ->
  generateQRCode Q page (VString data) options
  = Throw (Error invalidLevelMessage).
Proof.
  intros Hb Hl Hv. unfold generateQRCode.
  rewrite (trim_empty_false _ Hb).
  destruct (Z.gtb_spec (Z.of_nat (List.length data)) 2953); [lia|].
  unfold levelOption in Hv. rewrite Hv. reflexivity.
Qed.

(** Past the guards the outcome is that of the [try] statement. *)
Lemma generateQRCode_try (data : JSString) (options : Options) :
  isBlank data = false ->
  Z.of_nat (List.length data) <= 2953 ->
  arrayIncludes validLevels (levelOption options) = true ->
  generateQRCode Q page (VString data) options
  = tryCatch
      (bind (makeSymbol Q data (levelOption options))
            (renderSymbol Q page (sizeOrDefault (size options))))
      rethrowOrWrap.
Proof.
  intros Hb Hl Hv. unfold generateQRCode.
  rewrite (trim_empty_false _ Hb).
  destruct (Z.gtb_spec (Z.of_nat (List.length data)) 2953); [lia|].
  unfold levelOption in Hv. rewrite Hv. reflexivity.
Qed.

(** Whatever the [catch] block throws, it is not the message of the level
    guard. *)
Lemma rethrowOrWrap_not_invalid_level (e : JSError) :
  rethrowOrWrap e <> Throw (Error invalidLevelMessage).
Proof.
  unfold rethrowOrWrap. destruct e as [m]; simpl.
  destruct (includes (js "QR code") m) eqn:E.
  - intros H. inversion H; subst. vm_compute in E. discriminate.
  - intros H. inversion H.
Qed.

Lemma try_not_invalid_level (body : Completion Canvas) :
  tryCatch body rethrowOrWrap <> Throw (Error invalidLevelMessage).
Proof.
  destruct body as [c|e]; simpl; [discriminate|].
  apply rethrowOrWrap_not_invalid_level.
Qed.

End Guards.

(** The recorder never throws: it records the four calls. *)
Lemma requested_eq (data level : JSString) :
  requested data level
  = Return {| typeNumber := Some (getTypeNumberForData data);
              errorCorrectLevel := Some (errorCorrectionToLevel level);
              dataList := [data]; made := true |}.
Proof. reflexivity. Qed.

Lemma selectedVersion_eq (data : JSString) (level : ErrorCorrectionLevel) :
  selectedVersion data level = Some (getTypeNumberForData data).
Proof. reflexivity. Qed.

Lemma errorCorrectionOrDefault_nonempty (s : JSString) :
  s <> [] -> errorCorrectionOrDefault (Some s) = s.
Proof. destruct s; [congruence | reflexivity]. Qed.

Lemma levelName_valid (level : ErrorCorrectionLevel) :
  arrayIncludes validLevels (levelName level) = true.
Proof. destruct level; reflexivity. Qed.

Lemma lengthRange_versions (v n : Z) :
  lengthRange v n -> In v [1; 2; 3; 4; 5; 6; 7; 10].
Proof.
  unfold lengthRange.
  destruct v as [|p|p]; try contradiction.
  repeat (match goal with
          | |- context [match ?q with _ => _ end] => is_var q; destruct q
          end; try contradiction).
  all: intros _; simpl; auto 10.
Qed.

Lemma getTypeNumberForData_range (data : JSString) :
  lengthRange (getTypeNumberForData data) (Z.of_nat (List.length data)).
Proof.
  unfold getTypeNumberForData.
  repeat match goal with
         | |- context [?a <=? ?b] => destruct (Z.leb_spec a b)
         end; simpl; lia.
Qed.

Lemma getTypeNumberForData_mono (a b : JSString) :
  (List.length a <= List.length b)%nat ->
  getTypeNumberForData a <= getTypeNumberForData b.
Proof.
  intros H. unfold getTypeNumberForData.
  repeat match goal with
         | |- context [?x <=? ?y] => destruct (Z.leb_spec x y)
         end; lia.
Qed.

(* ===================================================================== *)
(** ** The adapter's unit tests, and where its constants come from *)
(* ===================================================================== *)

(** The tests of [tests/qr-code/adapter.test.js], run on the recording
    encoder. *)
Example test_default_size :
  option_map (fun c => (width c, height c))
    (match generateQRCode Recorder browser (VString giftCode) noOptions with
     | Return c => Some c
     | Throw _ => None
     end)
  = Some (300, 300).
Proof. reflexivity. Qed.

Example test_respects_size :
  option_map (fun c => (width c, height c))
    (match generateQRCode Recorder browser (VString giftCode)
             (withSize (Int 500)) with
     | Return c => Some c
     | Throw _ => None
     end)
  = Some (500, 500).
Proof. reflexivity. Qed.

Example test_rejects_empty_data :
  generateQRCode Recorder browser (VString []) noOptions
  = Throw (Error nonEmptyMessage)
  /\ generateQRCode Recorder browser (VString (js "   ")) noOptions
     = Throw (Error nonEmptyMessage).
Proof. split; reflexivity. Qed.

Example test_rejects_too_long_data :
  generateQRCode Recorder browser (VString (repeat 97%N 3000)) noOptions
  = Throw (Error tooLongMessage).
Proof. vm_compute. reflexivity. Qed.

Example test_rejects_invalid_level :
  generateQRCode Recorder browser (VString (js "data")) (withLevel (js "X"))
  = Throw (Error invalidLevelMessage)
  /\ invalidLevelMessage
     = js "Invalid error correction level. Expected one of: L, M, H, Q".
Proof. split; reflexivity. Qed.

(** An error of the legacy encoder reaches the caller wrapped, and one whose
    message mentions 'QR code' as it is. *)
Example catch_wraps_or_rethrows :
  rethrowOrWrap (Error (js "code length overflow"))
  = Throw (Error (js "Failed to generate QR code: code length overflow"))
  /\ rethrowOrWrap (Error (js "QR code not made"))
     = Throw (Error (js "QR code not made")).
Proof. split; reflexivity. Qed.

(** The thresholds of [getTypeNumberForData] are the numbers of digits that
    versions 1 to 7 hold at level L in Numeric mode when no terminator is
    counted: the segment of that many digits fits, and one digit more does
    not. *)
Example thresholds_are_numeric_capacities_at_L :
  forallb
    (fun p : Z * nat =>
       let (v, n) := p in
       (Z.of_nat (List.length (numericSegment v (repeat 0 n)))
        <=? capacityBits v LevelL)
       && negb (Z.of_nat (List.length (numericSegment v (repeat 0 (S n))))
                <=? capacityBits v LevelL))
    [(1, 41%nat); (2, 77%nat); (3, 127%nat); (4, 187%nat); (5, 255%nat);
     (6, 322%nat); (7, 370%nat)]
  = true.
Proof. vm_compute. reflexivity. Qed.

(** The ceiling 2953 of the length guard is the number of bytes that version
    40 holds at level L after the standard's 4-bit mode indicator and 16-bit
    length field of Byte mode. *)
Example ceiling_is_byte_capacity_of_40_L :
  (capacityBits 40 LevelL - (4 + 16)) / 8 = 2953.
Proof. reflexivity. Qed.

(* ===================================================================== *)
(** ** The length ceiling (claim C1) *)
(* ===================================================================== *)

(** C1, counterexample.  The claim lets encode fail with the too-long error
    only when no version up to 40 suffices at the requested level.  A payload
    of 2954 digits at level L is refused by [generateQRCode] with the too-long
    error, whatever the legacy encoder is, although by the specification's own
    Capacity Planner version 25 holds it at level L. *)
Lemma too_long_refuses_a_payload_that_fits :
  option_map (planVersion LevelL) (digitsOf (digitRun 2954)) = Some (Some 25)
  /\ forall (Q : LegacyQRCode) (page : Page),
       generateQRCode Q page (VString (digitRun 2954)) (withLevel (js "L"))
       = Throw (Error tooLongMessage).
Proof.
  split; [vm_compute; reflexivity|].
  intros Q page. apply generateQRCode_too_long.
  - vm_compute; reflexivity.
  - vm_compute; reflexivity.
Qed.

(** C1, as the code has it.  A payload that is not blank and is longer than
    2953 code units makes [generateQRCode] throw the too-long error for every
    options value, so at every level and with the same ceiling, and for every
    legacy encoder, so before it is used.  A payload that is not blank and has
    at most 2953 code units passes this guard at each of the four levels: the
    outcome is that of the [try] statement, in which the legacy encoder is
    given the whole payload and the constant of the requested level, which no
    other level shares. *)
Theorem too_long_ceiling_is_fixed
  (Q : LegacyQRCode) (page : Page) (long short : JSString)
  (options : Options) (level : ErrorCorrectionLevel) :
  isBlank long = false ->
  2953 < Z.of_nat (List.length long) ->
  isBlank short = false ->
  Z.of_nat (List.length short) <= 2953 ->
  generateQRCode Q page (VString long) options = Throw (Error tooLongMessage)
  /\ generateQRCode Q page (VString short) (withLevel (levelName level))
     = tryCatch (bind (makeSymbol Q short (levelName level))
                      (renderSymbol Q page 300))
                rethrowOrWrap
  /\ requested short (levelName level)
     = Return {| typeNumber := Some (getTypeNumberForData short);
                 errorCorrectLevel :=
                   Some (errorCorrectionToLevel (levelName level));
                 dataList := [short]; made := true |}
  /\ (forall other,
        errorCorrectionToLevel (levelName other)
        = errorCorrectionToLevel (levelName level) ->
        other = level).
Proof.
  intros Hl Hlen Hs Hslen. split; [|split; [|split]].
  - apply generateQRCode_too_long; assumption.
  - rewrite generateQRCode_try; try assumption.
    + destruct level; reflexivity.
    + destruct level; reflexivity.
  - apply requested_eq.
  - intros other. destruct other, level; vm_compute; congruence.
Qed.

(** The hypotheses of [too_long_ceiling_is_fixed] hold of 2954 digits and of
    the gift code "ABC123XYZ". *)
Lemma too_long_ceiling_is_fixed_witness :
  isBlank (digitRun 2954) = false
  /\ 2953 < Z.of_nat (List.length (digitRun 2954))
  /\ isBlank giftCode = false
  /\ Z.of_nat (List.length giftCode) <= 2953
  /\ generateQRCode Recorder browser (VString (digitRun 2954))
       (withLevel (js "H"))
     = Throw (Error tooLongMessage)
  /\ requested giftCode (js "H")
     = Return {| typeNumber := Some 1; errorCorrectLevel := Some 2;
                 dataList := [giftCode]; made := true |}.
Proof.
  assert (H1 : isBlank (digitRun 2954) = false) by (vm_compute; reflexivity).
  assert (H2 : 2953 < Z.of_nat (List.length (digitRun 2954)))
    by (vm_compute; reflexivity).
  assert (H3 : isBlank giftCode = false) by reflexivity.
  assert (H4 : Z.of_nat (List.length giftCode) <= 2953)
    by (vm_compute; discriminate).
  repeat (split; [assumption|]).
  destruct (too_long_ceiling_is_fixed Recorder browser (digitRun 2954) giftCode
              (withLevel (js "H")) LevelH H1 H2 H3 H4) as (Ha & _ & Hc & _).
  split; [exact Ha | exact Hc].
Defined.

(* ===================================================================== *)
(** ** Version selection (claims C2, C3 and C4) *)
(* ===================================================================== *)

(** C2, counterexample.  For 371 digits at level L the specification's planner
    selects version 8, the smallest that suffices (version 7 does not hold
    the segment even with no terminator counted); the adapter selects 10.  For
    41 digits at level H the adapter selects version 1, which does not
    suffice; the planner selects 3. *)
Lemma selected_version_is_not_the_smallest_sufficient :
  option_map (planVersion LevelL) (digitsOf (digitRun 371)) = Some (Some 8)
  /\ option_map
       (fun d => Z.of_nat (List.length (numericSegment 7 d))
                 <=? capacityBits 7 LevelL)
       (digitsOf (digitRun 371))
     = Some false
  /\ getTypeNumberForData (digitRun 371) = 10
  /\ selectedVersion (digitRun 371) LevelL = Some 10
  /\ option_map (planVersion LevelH) (digitsOf (digitRun 41)) = Some (Some 3)
  /\ selectedVersion (digitRun 41) LevelH = Some 1.
Proof. repeat split; vm_compute; reflexivity. Qed.

(** C2, as the code has it.  The type number depends on the length of the
    payload alone, and not on the requested level: it is the first of the
    versions 1 to 7 whose threshold (41, 77, 127, 187, 255, 322, 370) is at
    least the length, and 10 for every longer payload.  Versions 8, 9 and 11
    to 40 are never selected. *)
Theorem type_number_follows_length_thresholds
  (data : JSString) (level : ErrorCorrectionLevel) :
  selectedVersion data level = Some (getTypeNumberForData data)
  /\ lengthRange (getTypeNumberForData data) (Z.of_nat (List.length data))
  /\ (forall v, lengthRange v (Z.of_nat (List.length data)) ->
                getTypeNumberForData data = v)
  /\ In (getTypeNumberForData data) [1; 2; 3; 4; 5; 6; 7; 10].
Proof.
  split; [apply selectedVersion_eq|].
  pose proof (getTypeNumberForData_range data) as R.
  split; [exact R|]. split.
  - intros v Hv.
    pose proof (lengthRange_versions _ _ R) as Ht.
    pose proof (lengthRange_versions _ _ Hv) as Hw.
    revert R Hv Ht Hw.
    generalize (getTypeNumberForData data), (Z.of_nat (List.length data)).
    intros t n R Hv Ht Hw. simpl in Ht, Hw.
    repeat (destruct Ht as [<-|Ht]); try contradiction;
      repeat (destruct Hw as [<-|Hw]); try contradiction;
      simpl in R, Hv; lia.
  - exact (lengthRange_versions _ _ R).
Qed.

(** C3.  For the payload "01234567" at level M the adapter selects type number
    1 and hands the legacy encoder the level constant of M; the
    specification's planner selects version 1 as well; the Numeric segment of
    the payload (mode indicator, 10-bit length field, three digit groups of
    10, 10 and 7 bits) has exactly 41 bits; and a symbol of version 1 has side
    21. *)
Theorem numeric_01234567_at_level_M :
  selectedVersion (js "01234567") LevelM = Some 1
  /\ requested (js "01234567") (levelName LevelM)
     = Return {| typeNumber := Some 1; errorCorrectLevel := Some 0;
                 dataList := [js "01234567"]; made := true |}
  /\ option_map (planVersion LevelM) (digitsOf (js "01234567"))
     = Some (Some 1)
  /\ option_map (numericSegment 1) (digitsOf (js "01234567"))
     = Some (bitString "00010000001000000000110001010110011000011")
  /\ List.length (bitString "00010000001000000000110001010110011000011")
     = 41%nat
  /\ sideLength 1 = 21.
Proof. repeat split; vm_compute; reflexivity. Qed.

(** C4, counterexample.  H is a strictly higher level than L, and for the
    payload "01234567" the adapter selects version 1 at both: an equal
    version, which the claim excludes. *)
Lemma higher_level_selects_equal_version :
  strength LevelL < strength LevelH
  /\ selectedVersion (js "01234567") LevelL = Some 1
  /\ selectedVersion (js "01234567") LevelH = Some 1.
Proof. repeat split. Qed.

(** C4, as the code has it.  At one level a payload at least as long as
    another is never given a smaller version; and the version selected for a
    payload is the same at every level. *)
Theorem selected_version_monotone_in_length
  (shorter longer : JSString) (level other : ErrorCorrectionLevel) :
  (List.length shorter <= List.length longer)%nat ->
  (exists v w,
      selectedVersion shorter level = Some v
      /\ selectedVersion longer level = Some w
      /\ v <= w)
  /\ selectedVersion shorter other = selectedVersion shorter level.
Proof.
  intros H. split.
  - exists (getTypeNumberForData shorter), (getTypeNumberForData longer).
    repeat split. apply getTypeNumberForData_mono; assumption.
  - reflexivity.
Qed.

(** The hypothesis of [selected_version_monotone_in_length] holds of
    "01234567" and 371 digits. *)
Lemma selected_version_monotone_in_length_witness :
  (List.length (js "01234567") <= List.length (digitRun 371))%nat
  /\ (exists v w,
         selectedVersion (js "01234567") LevelL = Some v
         /\ selectedVersion (digitRun 371) LevelL = Some w
         /\ v <= w)
  /\ selectedVersion (js "01234567") LevelH
     = selectedVersion (js "01234567") LevelL.
Proof.
  assert (H : (List.length (js "01234567") <= List.length (digitRun 371))%nat)
    by (vm_compute; repeat constructor).
  split; [exact H|].
  exact (selected_version_monotone_in_length
           (js "01234567") (digitRun 371) LevelL LevelH H).
Defined.

(* ===================================================================== *)
(** ** Errors of the guards (claims C6, C7 and C9) *)
(* ===================================================================== *)

Lemma In_upTo (n z : Z) : In z (upTo n) <-> 0 <= z < n.
Proof.
  unfold upTo. rewrite in_map_iff. split.
  - intros (k & <- & Hk). apply in_seq in Hk. lia.
  - intros H. exists (Z.to_nat z). split; [lia|]. apply in_seq. lia.
Qed.

(** Every dark module of the symbol is drawn. *)
Lemma drawQRCodeOnCanvas_complete
  (Q : LegacyQRCode) (qr : qrcode Q) (size row col : Z) :
  0 <= row < getModuleCount Q qr ->
  0 <= col < getModuleCount Q qr ->
  isDark Q qr row col = true ->
  In (fillRect (col * (size / getModuleCount Q qr))
               (row * (size / getModuleCount Q qr))
               (size / getModuleCount Q qr) (size / getModuleCount Q qr))
     (drawQRCodeOnCanvas Q qr size).
Proof.
  intros Hr Hc Hd. unfold drawQRCodeOnCanvas.
  apply in_or_app. right.
  apply in_flat_map. exists row. split; [apply In_upTo; assumption|].
  apply in_flat_map. exists col. split; [apply In_upTo; assumption|].
  rewrite Hd. left. reflexivity.
Qed.

(** C6, counterexample.  The empty string names no level, and 41 is no
    version; yet with either in the options the recording encoder is run and a
    canvas returned, and whatever the legacy encoder and the page, the outcome
    is never the error of the level guard. *)
Lemma empty_level_and_forced_version_are_accepted :
  ~ In [] validLevels
  /\ (exists canvas,
         generateQRCode Recorder browser (VString giftCode)
           {| size := None; errorCorrection := Some [];
              forcedVersion := None |}
         = Return canvas)
  /\ (exists canvas,
         generateQRCode Recorder browser (VString giftCode)
           {| size := None; errorCorrection := Some (js "M");
              forcedVersion := Some 41 |}
         = Return canvas)
  /\ (forall (Q : LegacyQRCode) (page : Page),
         generateQRCode Q page (VString giftCode)
           {| size := None; errorCorrection := Some [];
              forcedVersion := None |}
         <> Throw (Error invalidLevelMessage))
  /\ (forall (Q : LegacyQRCode) (page : Page),
         generateQRCode Q page (VString giftCode)
           {| size := None; errorCorrection := Some (js "M");
              forcedVersion := Some 41 |}
         <> Throw (Error invalidLevelMessage)).
Proof.
  split; [|split; [|split; [|split]]].
  - simpl. intros [H|[H|[H|[H|[]]]]]; discriminate.
  - eexists. vm_compute. reflexivity.
  - eexists. vm_compute. reflexivity.
  - intros Q page. rewrite generateQRCode_try by (vm_compute; congruence).
    apply try_not_invalid_level.
  - intros Q page. rewrite generateQRCode_try by (vm_compute; congruence).
    apply try_not_invalid_level.
Qed.

(** C6, as the code has it.  For a payload that passes the two payload guards
    and an [errorCorrection] that is a string, not empty, other than L, M, Q
    and H, [generateQRCode] throws the invalid-level error for every legacy
    encoder, so before it is used.  For each of L, M, Q and H this error is
    not thrown.  An empty [errorCorrection] is read as M, and [forcedVersion]
    changes nothing. *)
Theorem unknown_level_is_rejected
  (Q : LegacyQRCode) (page : Page) (data : JSString)
  (sz : option JSNumber) (forced : option Z)
  (unknown : JSString) (known : ErrorCorrectionLevel) :
  isBlank data = false ->
  Z.of_nat (List.length data) <= 2953 ->
  unknown <> [] ->
  ~ In unknown validLevels ->
  generateQRCode Q page (VString data)
    {| size := sz; errorCorrection := Some unknown; forcedVersion := forced |}
  = Throw (Error invalidLevelMessage)
  /\ generateQRCode Q page (VString data)
       {| size := sz; errorCorrection := Some (levelName known);
          forcedVersion := forced |}
     <> Throw (Error invalidLevelMessage)
  /\ generateQRCode Q page (VString data)
       {| size := sz; errorCorrection := Some [];
          forcedVersion := forced |}
     = generateQRCode Q page (VString data)
         {| size := sz; errorCorrection := Some (js "M");
            forcedVersion := forced |}
  /\ generateQRCode Q page (VString data)
       {| size := sz; errorCorrection := Some (levelName known);
          forcedVersion := forced |}
     = generateQRCode Q page (VString data)
         {| size := sz; errorCorrection := Some (levelName known);
            forcedVersion := None |}.
Proof.
  intros Hb Hl Hne Hin. split; [|split; [|split]].
  - apply generateQRCode_invalid_level; try assumption.
    unfold levelOption. cbn [errorCorrection].
    rewrite (errorCorrectionOrDefault_nonempty _ Hne).
    destruct (arrayIncludes validLevels unknown) eqn:E; [|reflexivity].
    apply arrayIncludes_In in E. contradiction.
  - rewrite generateQRCode_try; try assumption.
    + apply try_not_invalid_level.
    + destruct known; reflexivity.
  - reflexivity.
  - reflexivity.
Qed.

(** The hypotheses of [unknown_level_is_rejected] hold of the payload "data"
    and the level 'X' of the adapter's test. *)
Lemma unknown_level_is_rejected_witness :
  isBlank (js "data") = false
  /\ Z.of_nat (List.length (js "data")) <= 2953
  /\ js "X" <> []
  /\ ~ In (js "X") validLevels
  /\ generateQRCode Recorder browser (VString (js "data"))
       (withLevel (js "X"))
     = Throw (Error invalidLevelMessage)
  /\ generateQRCode Recorder browser (VString (js "data"))
       (withLevel (js "Q"))
     <> Throw (Error invalidLevelMessage).
Proof.
  assert (H1 : isBlank (js "data") = false) by reflexivity.
  assert (H2 : Z.of_nat (List.length (js "data")) <= 2953)
    by (vm_compute; discriminate).
  assert (H3 : js "X" <> []) by discriminate.
  assert (H4 : ~ In (js "X") validLevels).
  { simpl. intros [H|[H|[H|[H|[]]]]]; discriminate. }
  repeat (split; [assumption|]).
  destruct (unknown_level_is_rejected Recorder browser (js "data") None None
              (js "X") LevelQ H1 H2 H3 H4) as (Ha & Hb & _).
  split; [exact Ha | exact Hb].
Defined.

(** C7.  With [errorCorrection] absent the adapter works with level M: the
    outcome is that of the call with [errorCorrection: 'M'], for every payload
    and every legacy encoder, and the level constant the encoder is given is
    that of M. *)
Theorem absent_level_is_M
  (Q : LegacyQRCode) (page : Page) (data : JSValue)
  (sz : option JSNumber) (forced : option Z) :
  generateQRCode Q page data
    {| size := sz; errorCorrection := None; forcedVersion := forced |}
  = generateQRCode Q page data
      {| size := sz; errorCorrection := Some (js "M");
         forcedVersion := forced |}
  /\ generateQRCode Q page data noOptions
     = generateQRCode Q page data (withLevel (js "M"))
  /\ levelOption
       {| size := sz; errorCorrection := None; forcedVersion := forced |}
     = levelName LevelM
  /\ (forall s,
         requested s (levelOption
           {| size := sz; errorCorrection := None; forcedVersion := forced |})
         = Return {| typeNumber := Some (getTypeNumberForData s);
                     errorCorrectLevel := Some 0;
                     dataList := [s]; made := true |}).
Proof. repeat split. Qed.

(** C9.  A payload that is empty or made of white space only makes
    [generateQRCode] throw 'QR code data must be non-empty string', for every
    options value and every legacy encoder, so without using it; and this is
    not the too-long error. *)
Theorem blank_payload_is_rejected
  (Q : LegacyQRCode) (page : Page) (data : JSString) (options : Options) :
  isBlank data = true ->
  generateQRCode Q page (VString data) options = Throw (Error nonEmptyMessage)
  /\ Error nonEmptyMessage <> Error tooLongMessage.
Proof.
  intros H. split; [apply generateQRCode_blank; assumption|].
  vm_compute. discriminate.
Qed.

(** The hypothesis of [blank_payload_is_rejected] holds of the three spaces of
    the adapter's test. *)
Lemma blank_payload_is_rejected_witness :
  isBlank (js "   ") = true
  /\ Z.of_nat (List.length (js "   ")) <= 2953
  /\ generateQRCode Recorder browser (VString (js "   ")) noOptions
     = Throw (Error nonEmptyMessage).
Proof.
  assert (H : isBlank (js "   ") = true) by reflexivity.
  split; [exact H|]. split; [vm_compute; discriminate|].
  exact (proj1 (blank_payload_is_rejected Recorder browser (js "   ")
                  noOptions H)).
Defined.

(* ===================================================================== *)
(** ** Mask selection (claim C8) *)
(* ===================================================================== *)

(** Scanning the candidates [start, start + n) in order from a current best
    below [start] ends on an index of lowest score, and on the first such. *)
Lemma lowestPenalty_seq (score : nat -> Z) (n start best : nat) :
  (best < start)%nat ->
  let r := lowestPenalty score (seq start n) best in
  (r = best \/ (start <= r < start + n)%nat)
  /\ score r <= score best
  /\ (r <> best -> score r < score best)
  /\ (forall j, (start <= j < start + n)%nat -> score r <= score j)
  /\ (forall j, (start <= j < r)%nat -> score r < score j).
Proof.
  unfold lowestPenalty. revert start best.
  induction n as [|n IH]; intros start best Hlt; simpl.
  - repeat split; lia.
  - destruct (Z.ltb_spec (score start) (score best)) as [Hs|Hs].
    + destruct (IH (S start) start (Nat.lt_succ_diag_r start))
        as (Ha & Hb & Hc & Hd & He).
      set (r := fold_left _ _ _) in *.
      split; [lia|]. split; [lia|]. split; [lia|]. split.
      * intros j Hj. destruct (Nat.eq_dec j start) as [->|Hne];
          [lia | apply Hd; lia].
      * intros j Hj. destruct (Nat.eq_dec j start) as [->|Hne].
        -- apply Hc. lia.
        -- apply He. lia.
    + destruct (IH (S start) best (Nat.lt_lt_succ_r _ _ Hlt))
        as (Ha & Hb & Hc & Hd & He).
      set (r := fold_left _ _ _) in *.
      split; [lia|]. split; [lia|]. split; [exact Hc|]. split.
      * intros j Hj. destruct (Nat.eq_dec j start) as [->|Hne];
          [lia | apply Hd; lia].
      * intros j Hj. destruct (Nat.eq_dec j start) as [->|Hne].
        -- assert (r <> best) by lia. specialize (Hc H). lia.
        -- apply He. lia.
Qed.

(** C8.  The mask index selected is one of the eight, has the lowest penalty
    of the eight candidates, and is the lowest index with that penalty; it is
    determined by the penalties of the eight candidates alone, so that
    selecting again on the same unmasked matrix gives the same index.  And two
    calls of [generateQRCode] with the same payload, size and level option,
    on the same legacy encoder and page, have the same outcome: nothing else
    is read. *)
Theorem mask_selection_is_lowest_penalty_lowest_index
  (Matrix : Type) (penalty : Matrix -> Z)
  (applyMask : nat -> Matrix -> Matrix) (unmasked : Matrix) :
  let chosen := selectMask penalty applyMask unmasked in
  (chosen < 8)%nat
  /\ (forall j, (j < 8)%nat ->
        penalty (applyMask chosen unmasked)
        <= penalty (applyMask j unmasked))
  /\ (forall j, (j < chosen)%nat ->
        penalty (applyMask chosen unmasked)
        < penalty (applyMask j unmasked))
  /\ (forall penalty' : Matrix -> Z,
        (forall j, (j < 8)%nat ->
           penalty' (applyMask j unmasked) = penalty (applyMask j unmasked))
        -> selectMask penalty' applyMask unmasked = chosen)
  /\ (forall (Q : LegacyQRCode) (page : Page) (data : JSValue)
             (options options' : Options),
        size options = size options' ->
        errorCorrection options = errorCorrection options' ->
        generateQRCode Q page data options
        = generateQRCode Q page data options').
Proof.
  assert (Spec : forall p : Matrix -> Z,
    let c := selectMask p applyMask unmasked in
    (c < 8)%nat
    /\ (forall j, (j < 8)%nat ->
          p (applyMask c unmasked) <= p (applyMask j unmasked))
    /\ (forall j, (j < c)%nat ->
          p (applyMask c unmasked) < p (applyMask j unmasked))).
  { intros p. unfold selectMask.
    destruct (lowestPenalty_seq (fun i => p (applyMask i unmasked))
                7 1 0 Nat.lt_0_1) as (Ha & Hb & Hc & Hd & He).
    set (c := lowestPenalty _ _ _) in *. cbv zeta.
    split; [lia|]. split.
    - intros j Hj. destruct j as [|j]; [exact Hb | apply Hd; lia].
    - intros j Hj. destruct j as [|j]; [apply Hc; lia | apply He; lia]. }
  cbv zeta. destruct (Spec penalty) as (Ha & Hb & Hc).
  split; [exact Ha|]. split; [exact Hb|]. split; [exact Hc|].
  split.
  2:{ intros Q page data options options' Hs He.
      destruct data; try reflexivity.
      unfold generateQRCode. rewrite Hs, He. reflexivity. }
  intros penalty' Hsame.
  destruct (Spec penalty') as (Ha' & Hb' & Hc').
  set (c := selectMask penalty applyMask unmasked) in *.
  set (c' := selectMask penalty' applyMask unmasked) in *.
  destruct (Nat.lt_trichotomy c' c) as [Hlt|[Heq|Hgt]]; [|exact Heq|].
  - specialize (Hc c' Hlt). specialize (Hb' c Ha).
    rewrite !Hsame in Hb' by lia. lia.
  - specialize (Hc' c Hgt). specialize (Hb c' Ha').
    rewrite !Hsame in Hc' by lia. lia.
Qed.

(* ===================================================================== *)
(** ** What [drawQRCodeOnCanvas] paints *)
(* ===================================================================== *)

(** A returned canvas comes from a string payload, a made symbol and a 2d
    context. *)
Lemma generateQRCode_Return_inv
  (Q : LegacyQRCode) (page : Page) (data : JSValue) (options : Options)
  (canvas : Canvas) :
  generateQRCode Q page data options = Return canvas ->
  exists text qr,
    data = VString text
    /\ isBlank text = false
    /\ Z.of_nat (List.length text) <= 2953
    /\ arrayIncludes validLevels (levelOption options) = true
    /\ makeSymbol Q text (levelOption options) = Return qr
    /\ has2dContext page = true
    /\ canvas = {| width := sizeOrDefault (size options);
                   height := sizeOrDefault (size options);
                   drawn := drawQRCodeOnCanvas Q qr
                              (sizeOrDefault (size options)) |}.
Proof.
  destruct data as [| |b|n|text]; try discriminate.
  destruct (isBlank text) eqn:Hb.
  { rewrite generateQRCode_blank by assumption. discriminate. }
  destruct (Z_lt_le_dec 2953 (Z.of_nat (List.length text))) as [Hl|Hl].
  { rewrite generateQRCode_too_long by assumption. discriminate. }
  destruct (arrayIncludes validLevels (levelOption options)) eqn:Hv.
  2:{ rewrite generateQRCode_invalid_level by assumption. discriminate. }
  rewrite generateQRCode_try by assumption.
  destruct (makeSymbol Q text (levelOption options)) as [qr|cause] eqn:Hm;
    simpl.
  - unfold renderSymbol. destruct (has2dContext page) eqn:Hc; simpl.
    + intros H. inversion H. exists text, qr. repeat split; assumption.
    + unfold rethrowOrWrap.
      destruct (includes _ _); discriminate.
  - unfold rethrowOrWrap. destruct (includes _ _); discriminate.
Qed.

Lemma moduleRects_drawQRCodeOnCanvas
  (Q : LegacyQRCode) (qr : qrcode Q) (size : Z) (op : DrawOp) :
  In op (moduleRects (drawQRCodeOnCanvas Q qr size))
  <-> exists row col,
        0 <= row < getModuleCount Q qr
        /\ 0 <= col < getModuleCount Q qr
        /\ isDark Q qr row col = true
        /\ op = fillRect (col * (size / getModuleCount Q qr))
                         (row * (size / getModuleCount Q qr))
                         (size / getModuleCount Q qr)
                         (size / getModuleCount Q qr).
Proof.
  unfold moduleRects, drawQRCodeOnCanvas. simpl skipn.
  rewrite in_flat_map. split.
  - intros (row & Hrow & Hin). apply in_flat_map in Hin.
    destruct Hin as (col & Hcol & Hin).
    apply In_upTo in Hrow. apply In_upTo in Hcol.
    destruct (isDark Q qr row col) eqn:Hd; [|contradiction].
    destruct Hin as [<-|[]]. exists row, col. repeat split; try lia.
    exact Hd.
  - intros (row & col & Hrow & Hcol & Hd & ->).
    exists row. split; [apply In_upTo; assumption|].
    apply in_flat_map. exists col. split; [apply In_upTo; assumption|].
    rewrite Hd. left. reflexivity.
Qed.


Lemma drawQRCodeOnCanvas_cases
  (Q : LegacyQRCode) (qr : qrcode Q) (size : Z) (op : DrawOp) :
  In op (drawQRCodeOnCanvas Q qr size) ->
  op = fillStyle (js "#ffffff") \/ op = fillRect 0 0 size size
  \/ op = fillStyle (js "#000000")
  \/ In op (moduleRects (drawQRCodeOnCanvas Q qr size)).
Proof.
  unfold moduleRects, drawQRCodeOnCanvas. simpl skipn.
  intros H. apply in_app_or in H. destruct H as [H|H].
  - simpl in H. destruct H as [<-|[<-|[<-|[]]]]; auto.
  - auto.
Qed.

Lemma drawQRCodeOnCanvas_within
  (Q : LegacyQRCode) (qr : qrcode Q) (size : Z) (op : DrawOp) :
  0 <= size ->
  In op (drawQRCodeOnCanvas Q qr size) ->
  within size op.
Proof.
  intros Hs H. apply drawQRCodeOnCanvas_cases in H.
  destruct H as [->|[->|[->|H]]]; simpl; try exact I; try lia.
  apply moduleRects_drawQRCodeOnCanvas in H.
  destruct H as (row & col & Hr & Hc & _ & ->). simpl.
  set (n := getModuleCount Q qr) in *.
  assert (Hn : 0 < n) by lia.
  pose proof (Z.div_pos size n Hs Hn) as Hq.
  pose proof (Z.mul_div_le size n Hn) as Hm.
  set (m := size / n) in *.
  repeat split; nia.
Qed.

Lemma reflectedDimension_in_range (default n : Z) :
  0 <= n < 2 ^ 31 -> reflectedDimension default n = n.
Proof.
  intros H. unfold reflectedDimension. cbv zeta.
  rewrite Z.mod_small by lia.
  destruct (Z.ltb_spec n (2 ^ 31)); [reflexivity | lia].
Qed.

(** X2.  When the size is an integer that a canvas element keeps, from 0 to
    2^31 - 1, every rectangle on a canvas that [generateQRCode] returns lies
    within the canvas as the page reads it: its corner and sides are not
    negative and it ends at or before [canvas.width] and [canvas.height].
    The symbol is never painted outside the canvas. *)
Theorem painting_stays_within_the_canvas
  (Q : LegacyQRCode) (page : Page) (data : JSValue) (options : Options)
  (canvas : Canvas) (op : DrawOp) :
  generateQRCode Q page data options = Return canvas ->
  0 <= sizeOrDefault (size options) < 2 ^ 31 ->
  In op (drawn canvas) ->
  within (canvasWidth canvas) op /\ within (canvasHeight canvas) op.
Proof.
  intros H Hs Hin. apply generateQRCode_Return_inv in H.
  destruct H as (text & qr & _ & _ & _ & _ & _ & _ & ->).
  unfold canvasWidth, canvasHeight. cbn [width height drawn] in *.
  rewrite !reflectedDimension_in_range by exact Hs.
  split; apply (drawQRCodeOnCanvas_within Q qr); solve [assumption | lia].
Qed.

(** The gift code on the chequerboard encoder at the default size 300: the
    module of row 0 and column 2 is dark and painted at (28, 0). *)
Lemma painting_stays_within_the_canvas_witness :
  exists canvas,
    generateQRCode Checker browser (VString giftCode) noOptions
    = Return canvas
    /\ 0 <= sizeOrDefault (size noOptions) < 2 ^ 31
    /\ In (fillRect 28 0 14 14) (drawn canvas)
    /\ canvasWidth canvas = 300
    /\ canvasHeight canvas = 300
    /\ within (canvasWidth canvas) (fillRect 28 0 14 14)
    /\ within (canvasHeight canvas) (fillRect 28 0 14 14).
Proof.
  eexists. split; [reflexivity|].
  assert (Hs : 0 <= sizeOrDefault (size noOptions) < 2 ^ 31)
    by (vm_compute; split; [discriminate | reflexivity]).
  assert (Hin : In (fillRect 28 0 14 14)
                  (drawQRCodeOnCanvas Checker 1 300)).
  { vm_compute. do 4 right. left. reflexivity. }
  split; [exact Hs|]. split; [exact Hin|].
  split; [reflexivity|]. split; [reflexivity|].
  exact (painting_stays_within_the_canvas Checker browser (VString giftCode)
           noOptions _ (fillRect 28 0 14 14) eq_refl Hs Hin).
Defined.

(** X3.  A size below the module count of the symbol is no error: for a
    payload that passes the guards, [generateQRCode] returns the canvas, and
    every rectangle painted for a module is empty, at the origin with sides
    0.  The canvas shows the white background only. *)
Theorem size_below_module_count_paints_nothing
  (Q : LegacyQRCode) (page : Page) (data : JSString) (options : Options)
  (qr : qrcode Q) :
  isBlank data = false ->
  Z.of_nat (List.length data) <= 2953 ->
  arrayIncludes validLevels (levelOption options) = true ->
  makeSymbol Q data (levelOption options) = Return qr ->
  has2dContext page = true ->
  0 <= sizeOrDefault (size options) < getModuleCount Q qr ->
  exists canvas,
    generateQRCode Q page (VString data) options = Return canvas
    /\ width canvas = sizeOrDefault (size options)
    /\ forall op, In op (moduleRects (drawn canvas)) ->
                  op = fillRect 0 0 0 0.
Proof.
  intros Hb Hl Hv Hm Hc Hs.
  rewrite generateQRCode_try by assumption.
  rewrite Hm. simpl. unfold renderSymbol. rewrite Hc. simpl.
  eexists. split; [reflexivity|]. split; [reflexivity|].
  cbn [drawn]. intros op Hin.
  apply moduleRects_drawQRCodeOnCanvas in Hin.
  destruct Hin as (row & col & _ & _ & _ & ->).
  rewrite (Z.div_small _ _ Hs). rewrite !Z.mul_0_r. reflexivity.
Qed.

(** The gift code at size 20 on the chequerboard encoder, whose symbol has 21
    modules a side. *)
Lemma size_below_module_count_paints_nothing_witness :
  isBlank giftCode = false
  /\ Z.of_nat (List.length giftCode) <= 2953
  /\ 0 <= 20 < getModuleCount Checker 1
  /\ exists canvas,
       generateQRCode Checker browser (VString giftCode) (withSize (Int 20))
       = Return canvas
       /\ width canvas = 20
       /\ forall op, In op (moduleRects (drawn canvas)) ->
                     op = fillRect 0 0 0 0.
Proof.
  assert (H1 : isBlank giftCode = false) by reflexivity.
  assert (H2 : Z.of_nat (List.length giftCode) <= 2953)
    by (vm_compute; discriminate).
  assert (H3 : 0 <= 20 < getModuleCount Checker 1)
    by (vm_compute; split; [discriminate | reflexivity]).
  repeat (split; [assumption|]).
  exact (size_below_module_count_paints_nothing Checker browser giftCode
           (withSize (Int 20)) 1 H1 H2 eq_refl eq_refl eq_refl H3).
Defined.






(* ===================================================================== *)
(** ** Levels, errors and the [catch] block *)
(* ===================================================================== *)

Lemma strEq_false_iff (a b : JSString) : strEq a b = false <-> a <> b.
Proof.
  destruct (strEq a b) eqn:E.
  - apply strEq_true_iff in E. split; [discriminate | congruence].
  - split; [|reflexivity]. intros _ H. apply strEq_true_iff in H. congruence.
Qed.

Lemma errorCorrectionToLevel_cases (level : JSString) :
  (level = js "L" /\ errorCorrectionToLevel level = 1)
  \/ (level = js "M" /\ errorCorrectionToLevel level = 0)
  \/ (level = js "Q" /\ errorCorrectionToLevel level = 3)
  \/ (level = js "H" /\ errorCorrectionToLevel level = 2)
  \/ (level <> js "L" /\ level <> js "M" /\ level <> js "Q"
      /\ level <> js "H" /\ errorCorrectionToLevel level = 0).
Proof.
  unfold errorCorrectionToLevel.
  destruct (strEq level (js "L")) eqn:EL;
    [apply strEq_true_iff in EL; auto | apply strEq_false_iff in EL].
  destruct (strEq level (js "M")) eqn:EM;
    [apply strEq_true_iff in EM; auto | apply strEq_false_iff in EM].
  destruct (strEq level (js "Q")) eqn:EQ;
    [apply strEq_true_iff in EQ; auto | apply strEq_false_iff in EQ].
  destruct (strEq level (js "H")) eqn:EH;
    [apply strEq_true_iff in EH; auto 6 | apply strEq_false_iff in EH].
  do 4 right. auto.
Qed.

(** X5.  For a string that is no property name inherited from
    [Object.prototype], [errorCorrectionToLevel] gives 1, 3 and 2 for exactly
    the strings L, Q and H, and 0 for every other: for M, and also for a
    string that names no level (the match is case-sensitive), which is so
    read as M.  A level that [generateQRCode] lets through its guard is one
    of the four, so the fallback is not reached from there. *)
Theorem errorCorrectionToLevel_falls_back_to_M (level : JSString) :
  ~ In level inheritedKeys ->
  (errorCorrectionToLevel level = 1 <-> level = js "L")
  /\ (errorCorrectionToLevel level = 3 <-> level = js "Q")
  /\ (errorCorrectionToLevel level = 2 <-> level = js "H")
  /\ (errorCorrectionToLevel level = 0
      <-> level <> js "L" /\ level <> js "Q" /\ level <> js "H")
  /\ (arrayIncludes validLevels level = true ->
      exists l, level = levelName l).
Proof.
  intros _.
  destruct (errorCorrectionToLevel_cases level)
    as [[-> E]|[[-> E]|[[-> E]|[[-> E]|(NL & NM & NQ & NH & E)]]]];
    rewrite E; clear E.
  - repeat split; intros; try reflexivity; try discriminate;
      try (exists LevelL; reflexivity).
    destruct H as [H _]. congruence.
  - repeat split; intros; try reflexivity; try discriminate;
      try (exists LevelM; reflexivity).
  - repeat split; intros; try reflexivity; try discriminate;
      try (exists LevelQ; reflexivity).
    destruct H as (_ & H & _). congruence.
  - repeat split; intros; try reflexivity; try discriminate;
      try (exists LevelH; reflexivity).
    destruct H as (_ & _ & H). congruence.
  - repeat split; intros; try discriminate; try congruence.
    apply arrayIncludes_In in H. simpl in H.
    destruct H as [H|[H|[H|[H|[]]]]]; congruence.
Qed.

(** The lower-case letter l names no level and is no inherited key: it is
    given the constant 0 of M. *)
Lemma errorCorrectionToLevel_falls_back_to_M_witness :
  ~ In (js "l") inheritedKeys
  /\ errorCorrectionToLevel (js "l") = 0
  /\ js "l" <> js "L".
Proof.
  assert (H : ~ In (js "l") inheritedKeys).
  { simpl. intros F.
    repeat (destruct F as [F|F]; [discriminate F|]). exact F. }
  split; [exact H|].
  destruct (errorCorrectionToLevel_falls_back_to_M (js "l") H)
    as (_ & _ & _ & H0 & _).
  split; [apply H0; repeat split; discriminate | discriminate].
Defined.

Lemma startsWith_app (p a b : JSString) :
  startsWith p a = true -> startsWith p (a ++ b) = true.
Proof.
  revert a; induction p as [|x p IH]; intros a; [reflexivity|].
  destruct a as [|y a]; simpl; [discriminate|].
  rewrite !andb_true_iff. intros [H1 H2]. split; [exact H1 | apply IH, H2].
Qed.

Lemma includes_app_l (p a b : JSString) :
  includes p a = true -> includes p (a ++ b) = true.
Proof.
  induction a as [|y a IH]; simpl.
  - rewrite orb_false_r. destruct p; [|discriminate].
    intros _. destruct b; reflexivity.
  - rewrite !orb_true_iff. intros [H|H].
    + left. apply (startsWith_app p (y :: a) b H).
    + right. apply IH, H.
Qed.

Lemma wrapped_includes_QR_code (m : JSString) :
  includes (js "QR code") (js "Failed to generate QR code: " ++ m) = true.
Proof. apply includes_app_l. reflexivity. Qed.

(** X6.  When what the [catch] block catches is an [Error] object, whose
    message is a string, the block throws an error that mentions 'QR code':
    an error that mentions it already is thrown again as it is, any other is
    wrapped as 'Failed to generate QR code: ' followed by its message.
    Running the block on its own result changes nothing, so such an error is
    never wrapped twice.  (A caught value that is no such object is outside
    [JSError], and outside this statement.) *)
Theorem catch_block_wraps_at_most_once (error : JSError) :
  exists thrownError,
    rethrowOrWrap error = Throw thrownError
    /\ includes (js "QR code") (message thrownError) = true
    /\ rethrowOrWrap thrownError = Throw thrownError
    /\ (thrownError = error
        \/ message thrownError
           = js "Failed to generate QR code: " ++ message error).
Proof.
  unfold rethrowOrWrap.
  destruct (includes (js "QR code") (message error)) eqn:E.
  - exists error. rewrite E. auto.
  - eexists. split; [reflexivity|]. cbn [message].
    rewrite wrapped_includes_QR_code. auto.
Qed.

Lemma try_includes_QR_code (body : Completion Canvas) (e : JSError) :
  tryCatch body rethrowOrWrap = Throw e ->
  includes (js "QR code") (message e) = true.
Proof.
  destruct body as [c|cause]; simpl; [discriminate|].
  unfold rethrowOrWrap.
  destruct (includes (js "QR code") (message cause)) eqn:E;
    intros H; inversion H; subst; [exact E|].
  apply wrapped_includes_QR_code.
Qed.

(** X7.  Called with an options object, on a legacy encoder whose failures
    are [Error] objects, [generateQRCode] throws only errors that mention
    'QR code' in their message, with one exception: the error of the level
    guard, whose message does not.  ([Options] is an object and [JSError] an
    [Error] object: a call with [null] for options, and an encoder that
    throws another value, are outside this statement.) *)
Theorem errors_mention_QR_code_but_for_the_level
  (Q : LegacyQRCode) (page : Page) (data : JSValue) (options : Options)
  (error : JSError) :
  generateQRCode Q page data options = Throw error ->
  (error = Error invalidLevelMessage
   \/ includes (js "QR code") (message error) = true)
  /\ includes (js "QR code") invalidLevelMessage = false.
Proof.
  intros H. split; [|reflexivity]. revert H.
  destruct data as [| |b|n|text];
    try (intros H; inversion H; right; reflexivity).
  destruct (isBlank text) eqn:Hb.
  { rewrite generateQRCode_blank by assumption.
    intros H; inversion H; right; reflexivity. }
  destruct (Z_lt_le_dec 2953 (Z.of_nat (List.length text))) as [Hl|Hl].
  { rewrite generateQRCode_too_long by assumption.
    intros H; inversion H; right; reflexivity. }
  destruct (arrayIncludes validLevels (levelOption options)) eqn:Hv.
  2:{ rewrite generateQRCode_invalid_level by assumption.
      intros H; inversion H; left; reflexivity. }
  rewrite generateQRCode_try by assumption.
  intros H. right. exact (try_includes_QR_code _ _ H).
Qed.

(** The payload "data" on a page with no 2d context: the error thrown is
    the wrapped one, and mentions 'QR code'. *)
Lemma errors_mention_QR_code_but_for_the_level_witness :
  generateQRCode Recorder noContext (VString (js "data")) noOptions
  = Throw (Error (js "Failed to generate QR code: "
                  ++ noContextMessage))
  /\ includes (js "QR code")
       (js "Failed to generate QR code: " ++ noContextMessage) = true.
Proof.
  assert (H : generateQRCode Recorder noContext (VString (js "data"))
                noOptions
              = Throw (Error (js "Failed to generate QR code: "
                              ++ noContextMessage))) by reflexivity.
  split; [exact H|].
  destruct (errors_mention_QR_code_but_for_the_level Recorder noContext
              (VString (js "data")) noOptions _ H) as ([E|E] & _).
  - discriminate E.
  - exact E.
Defined.

(** X8.  On a page that gives no 2d context [generateQRCode] never returns a
    canvas.  When the payload passes the guards and the legacy encoder makes
    its symbol, the error is 'Failed to generate QR code: Could not get
    canvas context': the adapter's own error goes through its [catch] block
    and is wrapped. *)
Theorem no_context_no_canvas
  (Q : LegacyQRCode) (page : Page) (data : JSValue) (options : Options) :
  has2dContext page = false ->
  (exists error, generateQRCode Q page data options = Throw error)
  /\ (forall text qr,
        data = VString text ->
        isBlank text = false ->
        Z.of_nat (List.length text) <= 2953 ->
        arrayIncludes validLevels (levelOption options) = true ->
        makeSymbol Q text (levelOption options) = Return qr ->
        generateQRCode Q page data options
        = Throw (Error (js "Failed to generate QR code: "
                        ++ noContextMessage))).
Proof.
  intros Hc. split.
  - destruct (generateQRCode Q page data options) as [canvas|e] eqn:E;
      [|exists e; reflexivity].
    apply generateQRCode_Return_inv in E.
    destruct E as (? & ? & _ & _ & _ & _ & _ & Hc' & _). congruence.
  - intros text qr -> Hb Hl Hv Hm.
    rewrite generateQRCode_try by assumption.
    rewrite Hm. simpl. unfold renderSymbol. rewrite Hc. reflexivity.
Qed.

Lemma no_context_no_canvas_witness :
  has2dContext noContext = false
  /\ exists error,
       generateQRCode Checker noContext (VString giftCode) noOptions
       = Throw error.
Proof.
  assert (H : has2dContext noContext = false) by reflexivity.
  split; [exact H|].
  exact (proj1 (no_context_no_canvas Checker noContext (VString giftCode)
                  noOptions H)).
Defined.

(** X9.  The size option has no part in failure: with the same payload, level
    and legacy encoder, two calls that differ in [size] only throw the same
    error or both return a canvas. *)
Theorem size_does_not_change_the_error
  (Q : LegacyQRCode) (page : Page) (data : JSValue)
  (sz sz' : option JSNumber) (level : option JSString) (forced : option Z) :
  thrown (generateQRCode Q page data
            {| size := sz; errorCorrection := level;
               forcedVersion := forced |})
  = thrown (generateQRCode Q page data
              {| size := sz'; errorCorrection := level;
                 forcedVersion := forced |}).
Proof.
  destruct data as [| |b|n|text]; try reflexivity.
  unfold generateQRCode. cbn [size errorCorrection].
  destruct (isEmpty (trim text)); [reflexivity|].
  destruct (Z.of_nat (List.length text) >? 2953); [reflexivity|].
  destruct (negb (arrayIncludes validLevels (errorCorrectionOrDefault level)));
    [reflexivity|].
  destruct (makeSymbol Q text (errorCorrectionOrDefault level)) as [qr|e];
    simpl; [|reflexivity].
  unfold renderSymbol. destruct (has2dContext page); reflexivity.
Qed.

(* ===================================================================== *)
(** ** [generateQRCodeDataURL] and [renderQRCodeToContainer] *)
(* ===================================================================== *)

(** X10.  The two wrappers fail as [generateQRCode] fails: with the same
    payload and options they throw the very error it throws, and return when
    it returns, the data URL being that of its canvas.  Only
    [renderQRCodeToContainer] has a failure of its own: without an element as
    container it throws 'Container must be a valid DOM element', and does so
    before the payload is looked at. *)
Theorem wrappers_fail_as_generateQRCode_fails
  (Q : LegacyQRCode) (page : Page) (toDataURL : Canvas -> JSString)
  (data : JSValue) (options : Options) (nodes : list Node) :
  thrown (generateQRCodeDataURL Q page toDataURL data options)
  = thrown (generateQRCode Q page data options)
  /\ thrown (renderQRCodeToContainer Q page data (Some nodes) options)
     = thrown (generateQRCode Q page data options)
  /\ renderQRCodeToContainer Q page data None options
     = Throw (Error containerMessage)
  /\ (forall canvas,
        generateQRCode Q page data options = Return canvas ->
        generateQRCodeDataURL Q page toDataURL data options
        = Return (toDataURL canvas)).
Proof.
  unfold generateQRCodeDataURL, renderQRCodeToContainer.
  destruct (generateQRCode Q page data options) as [canvas|e] eqn:E; simpl.
  - apply generateQRCode_Return_inv in E.
    destruct E as (text & qr & -> & _). simpl.
    repeat split. intros c H. inversion H. reflexivity.
  - repeat split. intros c H. discriminate.
Qed.

(** X11.  When [generateQRCode] returns, [renderQRCodeToContainer] keeps the
    children of the container as they are and adds one child after them: the
    canvas returned, with class 'qr-code__canvas', role 'img' and the label
    'QR code for: ' followed by the first 50 code units of the payload.  The
    label has at most 63 code units, and holds the whole payload when that
    has at most 50. *)
Theorem container_gains_one_labelled_canvas
  (Q : LegacyQRCode) (page : Page) (data : JSValue) (options : Options)
  (nodes : list Node) (canvas : Canvas) :
  generateQRCode Q page data options = Return canvas ->
  exists text,
    data = VString text
    /\ renderQRCodeToContainer Q page data (Some nodes) options
       = Return (nodes ++
           [CanvasNode {| canvasOf := canvas;
                          className := js "qr-code__canvas";
                          attributes := [(js "aria-label", ariaLabel text);
                                         (js "role", js "img")];
                          style := [] |}])
    /\ (List.length (ariaLabel text) <= 63)%nat
    /\ ((List.length text <= 50)%nat ->
        ariaLabel text = js "QR code for: " ++ text).
Proof.
  intros H. pose proof (generateQRCode_Return_inv _ _ _ _ _ H) as Hinv.
  destruct Hinv as (text & qr & -> & _).
  exists text. split; [reflexivity|]. split.
  - unfold renderQRCodeToContainer. rewrite H. reflexivity.
  - unfold ariaLabel, substring0. split.
    + rewrite length_app. pose proof (firstn_le_length 50 text) as Hf.
      change (List.length (js "QR code for: ")) with 13%nat. lia.
    + intros Hl. rewrite firstn_all2 by exact Hl. reflexivity.
Qed.

(** The gift code rendered into a container that has a child already. *)
Lemma container_gains_one_labelled_canvas_witness :
  exists canvas text,
    generateQRCode Recorder browser (VString giftCode) noOptions
    = Return canvas
    /\ renderQRCodeToContainer Recorder browser (VString giftCode)
         (Some [OtherNode]) noOptions
       = Return ([OtherNode] ++
           [CanvasNode {| canvasOf := canvas;
                          className := js "qr-code__canvas";
                          attributes := [(js "aria-label", ariaLabel text);
                                         (js "role", js "img")];
                          style := [] |}])
    /\ ariaLabel text = js "QR code for: ABC123XYZ".
Proof.
  eexists.
  destruct (container_gains_one_labelled_canvas Recorder browser
              (VString giftCode) noOptions [OtherNode] _ eq_refl)
    as (text & E & Hr & _ & Hall).
  exists text. split; [reflexivity|]. split; [exact Hr|].
  inversion E; subst text. reflexivity.
Defined.

(* ===================================================================== *)
(** ** The component [<qr-code-image>] *)
(* ===================================================================== *)

Section Rendering.

Variable Q : LegacyQRCode.
Variable page : Page.

Lemma render_eq (el : QRCodeImage) :
  render Q page el
  = match dataAttribute el with
    | None => (withChildren el [errorDiv requiredMessage], [])
    | Some text =>
      if isEmpty text then (withChildren el [errorDiv requiredMessage], [])
      else
        match generateQRCode Q page (VString text) (optionsOfElement el) with
        | Return canvas => (withChildren el [CanvasNode (styled canvas)], [])
        | Throw error => (withChildren el [errorDiv failedMessage], [error])
        end
    end.
Proof.
  unfold render. destruct (dataAttribute el) as [text|]; [|reflexivity].
  destruct (isEmpty text); [reflexivity|].
  unfold optionsOfElement.
  destruct (generateQRCode Q page (VString text) _); reflexivity.
Qed.

(** A canvas among the children after [render] is the one [generateQRCode]
    returned for the data attribute and the options of the element. *)
Lemma render_canvas_inv (el : QRCodeImage) (canvas : Canvas) :
  children (fst (render Q page el)) = [CanvasNode (styled canvas)] ->
  exists text,
    dataAttribute el = Some text
    /\ generateQRCode Q page (VString text) (optionsOfElement el)
       = Return canvas.
Proof.
  rewrite render_eq.
  destruct (dataAttribute el) as [text|]; [|discriminate].
  destruct (isEmpty text); [discriminate|].
  destruct (generateQRCode Q page (VString text) (optionsOfElement el))
    as [c|e] eqn:E; [|discriminate].
  simpl. intros H. inversion H; subst. exists text. split; [reflexivity|].
  exact E.
Qed.

End Rendering.

(** X12.  [render] replaces the content of the element: whatever children it
    had, it has exactly one afterwards, the attributes are untouched, and the
    outcome does not depend on the children it had.  Rendering again, as
    [attributeChangedCallback] does, shows the same single child: canvases
    and messages do not pile up. *)
Theorem render_replaces_the_content
  (Q : LegacyQRCode) (page : Page) (el : QRCodeImage) (nodes : list Node) :
  List.length (children (fst (render Q page el))) = 1%nat
  /\ dataAttribute (fst (render Q page el)) = dataAttribute el
  /\ sizeAttribute (fst (render Q page el)) = sizeAttribute el
  /\ errorCorrectionAttribute (fst (render Q page el))
     = errorCorrectionAttribute el
  /\ render Q page (withChildren el nodes) = render Q page el
  /\ attributeChangedCallback Q page (fst (render Q page el))
     = render Q page el.
Proof.
  assert (Hsame : forall ns, render Q page (withChildren el ns)
                             = render Q page el).
  { intros ns. rewrite !render_eq. reflexivity. }
  assert (Hshape : fst (render Q page el)
                   = withChildren el (children (fst (render Q page el)))).
  { rewrite render_eq.
    destruct (dataAttribute el) as [text|]; [|reflexivity].
    destruct (isEmpty text); [reflexivity|].
    destruct (generateQRCode _ _ _ _); reflexivity. }
  split; [|split; [|split; [|split; [|split]]]].
  - rewrite render_eq.
    destruct (dataAttribute el) as [text|]; [|reflexivity].
    destruct (isEmpty text); [reflexivity|].
    destruct (generateQRCode _ _ _ _); reflexivity.
  - rewrite Hshape. reflexivity.
  - rewrite Hshape. reflexivity.
  - rewrite Hshape. reflexivity.
  - apply Hsame.
  - unfold attributeChangedCallback. rewrite Hshape at 1. apply Hsame.
Qed.

(** X13.  After [render] the element shows one of three things.  The canvas
    that [generateQRCode] returned, with its inline style, and nothing is
    logged.  Or the message 'QR code data attribute is required', when the
    data attribute is missing or empty; nothing is logged.  Or the message
    'Failed to generate QR code', when [generateQRCode] threw: the error
    thrown is logged, once, and its message is not shown. *)
Theorem render_shows_a_canvas_or_a_message
  (Q : LegacyQRCode) (page : Page) (el : QRCodeImage) :
  (exists text canvas,
      dataAttribute el = Some text
      /\ generateQRCode Q page (VString text) (optionsOfElement el)
         = Return canvas
      /\ children (fst (render Q page el)) = [CanvasNode (styled canvas)]
      /\ snd (render Q page el) = [])
  \/ ((dataAttribute el = None \/ dataAttribute el = Some [])
      /\ children (fst (render Q page el)) = [errorDiv requiredMessage]
      /\ snd (render Q page el) = [])
  \/ (exists text error,
        dataAttribute el = Some text
        /\ generateQRCode Q page (VString text) (optionsOfElement el)
           = Throw error
        /\ children (fst (render Q page el)) = [errorDiv failedMessage]
        /\ snd (render Q page el) = [error]).
Proof.
  rewrite render_eq.
  destruct (dataAttribute el) as [[|c text]|].
  - right. left. simpl. auto.
  - simpl isEmpty. cbv iota.
    destruct (generateQRCode Q page (VString (c :: text))
                (optionsOfElement el)) as [canvas|e] eqn:E.
    + left. exists (c :: text), canvas. auto.
    + right. right. exists (c :: text), e. auto.
  - right. left. simpl. auto.
Qed.

(** X14.  A data attribute that is not empty but blank, such as spaces, is
    not met by the component's own check: [generateQRCode] is called and
    throws, so the element shows 'Failed to generate QR code' and the error
    'QR code data must be non-empty string' is logged, whatever the other
    attributes and the legacy encoder. *)
Theorem blank_data_attribute_fails_in_generateQRCode
  (Q : LegacyQRCode) (page : Page) (el : QRCodeImage) (text : JSString) :
  dataAttribute el = Some text ->
  text <> [] ->
  isBlank text = true ->
  render Q page el
  = (withChildren el [errorDiv failedMessage], [Error nonEmptyMessage]).
Proof.
  intros Hd Hne Hb. rewrite render_eq, Hd.
  destruct text as [|c text]; [congruence|]. simpl isEmpty. cbv iota.
  rewrite generateQRCode_blank by assumption. reflexivity.
Qed.

Lemma blank_data_attribute_fails_in_generateQRCode_witness :
  js "   " <> []
  /\ isBlank (js "   ") = true
  /\ render Checker browser (element (Some (js "   ")) None None)
     = (withChildren (element (Some (js "   ")) None None)
          [errorDiv failedMessage],
        [Error nonEmptyMessage]).
Proof.
  assert (H1 : js "   " <> []) by discriminate.
  assert (H2 : isBlank (js "   ") = true) by reflexivity.
  repeat (split; [assumption|]).
  exact (blank_data_attribute_fails_in_generateQRCode Checker browser
           (element (Some (js "   ")) None None) (js "   ") eq_refl H1 H2).
Defined.

(** *** The size attribute *)

Lemma decimal_digit_cases (x : Z) :
  0 <= x <= 9 ->
  x = 0 \/ x = 1 \/ x = 2 \/ x = 3 \/ x = 4 \/ x = 5 \/ x = 6 \/ x = 7
  \/ x = 8 \/ x = 9.
Proof. lia. Qed.

Lemma radixDigit_numeral (x : Z) :
  0 <= x <= 9 -> radixDigit 10 (Z.to_N (x + 48)) = Some x.
Proof.
  intros H. apply decimal_digit_cases in H.
  repeat (destruct H as [->|H]; [reflexivity|]). subst. reflexivity.
Qed.

Lemma radixDigit_not_decimal (c : N) :
  isDecimalDigit c = false -> radixDigit 10 c = None.
Proof.
  unfold isDecimalDigit, radixDigit, digitValue. intros ->.
  destruct (N.leb 97 c && N.leb c 122)%bool eqn:E1.
  - apply andb_true_iff in E1. destruct E1 as [E1 _].
    apply N.leb_le in E1.
    destruct (Z.ltb_spec (Z.of_N c - 87) 10); [lia | reflexivity].
  - destruct (N.leb 65 c && N.leb c 90)%bool eqn:E2; [|reflexivity].
    apply andb_true_iff in E2. destruct E2 as [E2 _].
    apply N.leb_le in E2.
    destruct (Z.ltb_spec (Z.of_N c - 55) 10); [lia | reflexivity].
Qed.

Lemma leadingDigits_cons (radix : Z) (c : N) (s : JSString) :
  leadingDigits radix (c :: s)
  = match radixDigit radix c with
    | Some d => d :: leadingDigits radix s
    | None => []
    end.
Proof. reflexivity. Qed.

Lemma leadingDigits_ended (suffix : JSString) :
  endsNumeral suffix -> leadingDigits 10 suffix = [].
Proof.
  destruct suffix as [|c rest]; simpl; [reflexivity|].
  intros H. rewrite (radixDigit_not_decimal _ H). reflexivity.
Qed.

Lemma leadingDigits_numeral (ds : list Z) (suffix : JSString) :
  Forall (fun x => 0 <= x <= 9) ds ->
  endsNumeral suffix ->
  leadingDigits 10 (numeral ds ++ suffix) = ds.
Proof.
  intros Hds Hs. induction Hds as [|x ds Hx _ IH]; simpl.
  - apply leadingDigits_ended, Hs.
  - rewrite (radixDigit_numeral _ Hx). f_equal. exact IH.
Qed.

Lemma numeralValue_positive (ds : list Z) (acc : Z) :
  Forall (fun x => 0 <= x <= 9) ds ->
  1 <= acc ->
  1 <= fold_left (fun a d => a * 10 + d) ds acc.
Proof.
  intros Hds. revert acc. induction Hds as [|x ds Hx _ IH]; intros acc Ha;
    simpl; [exact Ha|].
  apply IH. lia.
Qed.

(** [parseInt] reads a decimal numeral with no leading zero, and stops at
    what ends it. *)
Lemma parseInt_numeral (d : Z) (ds : list Z) (suffix : JSString) :
  1 <= d <= 9 ->
  Forall (fun x => 0 <= x <= 9) ds ->
  endsNumeral suffix ->
  parseInt (numeral (d :: ds) ++ suffix) = Int (numeralValue 10 (d :: ds))
  /\ 1 <= numeralValue 10 (d :: ds).
Proof.
  intros Hd Hds Hs. split.
  - pose proof (leadingDigits_numeral ds suffix Hds Hs) as Hlead.
    assert (Hc : isWhiteSpace (Z.to_N (d + 48)) = false
                 /\ N.eqb (Z.to_N (d + 48)) 45 = false
                 /\ N.eqb (Z.to_N (d + 48)) 43 = false
                 /\ N.eqb (Z.to_N (d + 48)) 48 = false
                 /\ radixDigit 10 (Z.to_N (d + 48)) = Some d).
    { assert (H : 0 <= d <= 9) by lia. apply decimal_digit_cases in H.
      destruct H as [->|H]; [lia|].
      repeat (destruct H as [->|H]; [repeat split|]). subst. repeat split. }
    destruct Hc as (Hw & H45 & H43 & H48 & Hr).
    unfold parseInt. cbn [numeral List.map app]. fold (numeral ds).
    remember (numeral ds ++ suffix) as tail eqn:Etail.
    cbn [trimStart]. rewrite Hw. cbv beta iota zeta.
    rewrite H45, H43. cbv beta iota zeta. cbn [orb].
    destruct tail as [|x rest];
      [|rewrite H48; cbn [andb]]; cbv beta iota zeta; cbn [fst snd];
      rewrite leadingDigits_cons, Hr, Hlead, Z.mul_1_l; reflexivity.
  - unfold numeralValue. simpl. apply numeralValue_positive; [exact Hds|lia].
Qed.

(** [parseInt] finds no number in an unreadable size, or the default 300. *)
Lemma parseInt_unreadable (a : option JSString) :
  unreadableSize a ->
  parseInt (attributeOr a (js "300")) = NaN
  \/ parseInt (attributeOr a (js "300")) = Int 300.
Proof.
  destruct a as [[|c s]|];
    [right; reflexivity | | right; reflexivity].
  unfold unreadableSize. intros H. left.
  change (attributeOr (Some (c :: s)) (js "300")) with (c :: s).
  unfold parseInt.
  destruct (trimStart (c :: s)) as [|c' rest] eqn:E; [reflexivity|].
  destruct H as (Hd & H43 & H45). cbv beta iota zeta.
  apply N.eqb_neq in H43, H45. rewrite H43, H45.
  cbv beta iota zeta. cbn [orb].
  assert (H48 : N.eqb c' 48 = false).
  { apply N.eqb_neq. intros ->. discriminate Hd. }
  destruct rest as [|x rest];
    [|rewrite H48; cbn [andb]]; cbv beta iota zeta; cbn [fst snd];
    rewrite leadingDigits_cons, (radixDigit_not_decimal _ Hd); reflexivity.
Qed.

Lemma render_canvas_size
  (Q : LegacyQRCode) (page : Page) (el : QRCodeImage) (canvas : Canvas) :
  children (fst (render Q page el)) = [CanvasNode (styled canvas)] ->
  width canvas
  = sizeOrDefault
      (Some (parseInt (attributeOr (sizeAttribute el) (js "300"))))
  /\ height canvas = width canvas.
Proof.
  intros H. apply render_canvas_inv in H. destruct H as (text & _ & H).
  apply generateQRCode_Return_inv in H.
  destruct H as (? & qr & _ & _ & _ & _ & _ & _ & ->).
  split; reflexivity.
Qed.

(** X15.  A size attribute that starts with a decimal numeral without leading
    zero, below 2^31, gives a canvas that reads back that width and height,
    whatever follows the numeral: [parseInt] stops at the first code unit
    that is no digit, so '500px' is read as 500; and a canvas element keeps
    an integer below 2^31. *)
Theorem size_attribute_numeral_is_the_canvas_size
  (Q : LegacyQRCode) (page : Page) (el : QRCodeImage)
  (d : Z) (ds : list Z) (suffix : JSString) (canvas : Canvas) :
  1 <= d <= 9 ->
  Forall (fun x => 0 <= x <= 9) ds ->
  endsNumeral suffix ->
  numeralValue 10 (d :: ds) < 2 ^ 31 ->
  sizeAttribute el = Some (numeral (d :: ds) ++ suffix) ->
  children (fst (render Q page el)) = [CanvasNode (styled canvas)] ->
  canvasWidth canvas = numeralValue 10 (d :: ds)
  /\ canvasHeight canvas = numeralValue 10 (d :: ds).
Proof.
  intros Hd Hds Hs Hlt Hsize Hc.
  apply render_canvas_size in Hc. destruct Hc as (Hw & Hh).
  rewrite Hsize in Hw.
  change (attributeOr (Some (numeral (d :: ds) ++ suffix)) (js "300"))
    with (numeral (d :: ds) ++ suffix) in Hw.
  destruct (parseInt_numeral d ds suffix Hd Hds Hs) as (Hp & Hpos).
  rewrite Hp in Hw. unfold sizeOrDefault in Hw.
  destruct (Z.eqb_spec (numeralValue 10 (d :: ds)) 0) as [E|E]; [lia|].
  unfold canvasWidth, canvasHeight. rewrite Hh, Hw.
  rewrite !reflectedDimension_in_range by lia. split; reflexivity.
Qed.

(** The gift code with the size attribute '500px'. *)
Lemma size_attribute_numeral_is_the_canvas_size_witness :
  1 <= 5 <= 9
  /\ Forall (fun x => 0 <= x <= 9) [0; 0]
  /\ endsNumeral (js "px")
  /\ numeralValue 10 [5; 0; 0] < 2 ^ 31
  /\ numeral [5; 0; 0] ++ js "px" = js "500px"
  /\ exists canvas,
       children (fst (render Checker browser
                        (element (Some giftCode) (Some (js "500px")) None)))
       = [CanvasNode (styled canvas)]
       /\ canvasWidth canvas = 500
       /\ canvasHeight canvas = 500.
Proof.
  assert (H1 : 1 <= 5 <= 9) by lia.
  assert (H2 : Forall (fun x => 0 <= x <= 9) [0; 0])
    by (repeat constructor; discriminate).
  assert (H3 : endsNumeral (js "px")) by reflexivity.
  assert (H4 : numeralValue 10 [5; 0; 0] < 2 ^ 31) by reflexivity.
  repeat (split; [assumption|]). split; [reflexivity|].
  eexists. split; [reflexivity|].
  exact (size_attribute_numeral_is_the_canvas_size Checker browser
           (element (Some giftCode) (Some (js "500px")) None)
           5 [0; 0] (js "px") _ H1 H2 H3 H4 eq_refl eq_refl).
Defined.

(** X16.  A size attribute that is missing, empty, blank or that starts,
    after white space, with anything but a digit or a sign gives a canvas of
    width and height 300: [parseInt] yields NaN, which [generateQRCode]
    replaces by its default. *)
Theorem unreadable_size_attribute_gives_300
  (Q : LegacyQRCode) (page : Page) (el : QRCodeImage) (canvas : Canvas) :
  unreadableSize (sizeAttribute el) ->
  children (fst (render Q page el)) = [CanvasNode (styled canvas)] ->
  width canvas = 300 /\ height canvas = 300.
Proof.
  intros Hu Hc. apply render_canvas_size in Hc. destruct Hc as (Hw & Hh).
  rewrite Hh.
  destruct (parseInt_unreadable _ Hu) as [E|E]; rewrite E in Hw;
    split; exact Hw.
Qed.

(** The gift code with the size attribute 'large'. *)
Lemma unreadable_size_attribute_gives_300_witness :
  unreadableSize (Some (js "large"))
  /\ exists canvas,
       children (fst (render Checker browser
                        (element (Some giftCode) (Some (js "large")) None)))
       = [CanvasNode (styled canvas)]
       /\ width canvas = 300
       /\ height canvas = 300.
Proof.
  assert (H : unreadableSize (Some (js "large"))).
  { simpl. repeat split; discriminate. }
  split; [exact H|]. eexists. split; [reflexivity|].
  exact (unreadable_size_attribute_gives_300 Checker browser
           (element (Some giftCode) (Some (js "large")) None) _ H eq_refl).
Defined.

(** *** The error-correction attribute *)

(** X17.  With a data attribute that passes the payload guards, an
    error-correction attribute that is not empty and names no level makes
    the element show 'Failed to generate QR code' and log the invalid-level
    error, before the legacy encoder is used.  A missing or empty attribute
    is read as M: the element shows and logs what it does with the attribute
    'M'. *)
Theorem level_attribute_unknown_or_missing
  (Q : LegacyQRCode) (page : Page) (el : QRCodeImage)
  (text unknown : JSString) :
  dataAttribute el = Some text ->
  isBlank text = false ->
  Z.of_nat (List.length text) <= 2953 ->
  errorCorrectionAttribute el = Some unknown ->
  unknown <> [] ->
  ~ In unknown validLevels ->
  render Q page el
  = (withChildren el [errorDiv failedMessage], [Error invalidLevelMessage])
  /\ (forall data sz level,
        level = None \/ level = Some [] ->
        children (fst (render Q page (element data sz level)))
        = children (fst (render Q page (element data sz (Some (js "M")))))
        /\ snd (render Q page (element data sz level))
           = snd (render Q page (element data sz (Some (js "M"))))).
Proof.
  intros Hd Hb Hl He Hne Hin. split.
  - rewrite render_eq, Hd.
    destruct text as [|c text]; [discriminate Hb|]. simpl isEmpty. cbv iota.
    rewrite generateQRCode_invalid_level; try assumption; [reflexivity|].
    unfold levelOption, optionsOfElement. cbn [errorCorrection].
    rewrite He.
    destruct unknown as [|u unknown]; [congruence|].
    change (errorCorrectionOrDefault
              (Some (attributeOr (Some (u :: unknown)) (js "M"))))
      with (u :: unknown).
    destruct (arrayIncludes validLevels (u :: unknown)) eqn:E; [|reflexivity].
    apply arrayIncludes_In in E. contradiction.
  - intros data sz level Hlevel.
    assert (E : optionsOfElement (element data sz level)
                = optionsOfElement (element data sz (Some (js "M")))).
    { destruct Hlevel as [->| ->]; reflexivity. }
    rewrite !render_eq. cbn [element dataAttribute]. rewrite E.
    destruct data as [t|]; [|split; reflexivity].
    destruct (isEmpty t); [split; reflexivity|].
    destruct (generateQRCode Q page (VString t) _); split; reflexivity.
Qed.

(** The payload "data" with the level 'X' of the adapter's test. *)
Lemma level_attribute_unknown_or_missing_witness :
  isBlank (js "data") = false
  /\ Z.of_nat (List.length (js "data")) <= 2953
  /\ js "X" <> []
  /\ ~ In (js "X") validLevels
  /\ render Checker browser
       (element (Some (js "data")) None (Some (js "X")))
     = (withChildren (element (Some (js "data")) None (Some (js "X")))
          [errorDiv failedMessage],
        [Error invalidLevelMessage]).
Proof.
  assert (H1 : isBlank (js "data") = false) by reflexivity.
  assert (H2 : Z.of_nat (List.length (js "data")) <= 2953)
    by (vm_compute; discriminate).
  assert (H3 : js "X" <> []) by discriminate.
  assert (H4 : ~ In (js "X") validLevels).
  { simpl. intros [H|[H|[H|[H|[]]]]]; discriminate. }
  repeat (split; [assumption|]).
  exact (proj1 (level_attribute_unknown_or_missing Checker browser
                  (element (Some (js "data")) None (Some (js "X")))
                  (js "data") (js "X") eq_refl H1 H2 eq_refl H3 H4)).
Defined.

(* ===================================================================== *)
(** ** How a call ends (claim C5) *)
(* ===================================================================== *)







(* ===================================================================== *)
(** ** The size the canvas keeps (claim C10) *)
(* ===================================================================== *)

(** C10, counterexample.  The number -5 is not zero; with [size: -5] the call
    returns a canvas to which -5 was assigned as width and as height, and
    which reads back 300 wide and 150 high: neither is the size asked for,
    and they differ. *)
Lemma negative_size_reads_back_as_the_defaults :
  exists canvas,
    generateQRCode Checker browser (VString giftCode) (withSize (Int (-5)))
    = Return canvas
    /\ width canvas = -5
    /\ height canvas = -5
    /\ canvasWidth canvas = 300
    /\ canvasHeight canvas = 150.
Proof. eexists. split; [reflexivity|]. repeat split. Qed.

(** C10, as the code has it.  For a payload that passes the guards, a legacy
    encoder that makes its symbol and a page that gives a 2d context,
    [generateQRCode] returns a canvas whose width and height read 300 when
    [options.size] is absent, zero or NaN, and read [options.size] when it
    is an integer from 1 to 2^31 - 1, the numbers a canvas element keeps. *)
Theorem canvas_keeps_a_size_in_range
  (Q : LegacyQRCode) (page : Page) (data : JSString) (options : Options)
  (qr : qrcode Q) :
  isBlank data = false ->
  Z.of_nat (List.length data) <= 2953 ->
  arrayIncludes validLevels (levelOption options) = true ->
  makeSymbol Q data (levelOption options) = Return qr ->
  has2dContext page = true ->
  (forall n, size options = Some (Int n) -> 0 <= n < 2 ^ 31) ->
  exists canvas,
    generateQRCode Q page (VString data) options = Return canvas
    /\ canvasHeight canvas = canvasWidth canvas
    /\ canvasWidth canvas = match size options with
                            | None | Some NaN | Some (Int 0) => 300
                            | Some (Int n) => n
                            end.
Proof.
  intros Hb Hl Hv Hm Hc Hr.
  rewrite generateQRCode_try by assumption.
  rewrite Hm. simpl. unfold renderSymbol. rewrite Hc. simpl.
  eexists. split; [reflexivity|].
  unfold canvasWidth, canvasHeight. cbn [width height].
  assert (Hs : 0 <= sizeOrDefault (size options) < 2 ^ 31
               /\ sizeOrDefault (size options)
                  = match size options with
                    | None | Some NaN | Some (Int 0) => 300
                    | Some (Int n) => n
                    end).
  { destruct (size options) as [[n|]|] eqn:E; simpl;
      try (split; [split; [discriminate | reflexivity] | reflexivity]).
    specialize (Hr n eq_refl).
    destruct n as [|p|p]; simpl;
      [split; [split; [discriminate | reflexivity] | reflexivity]
      | split; [exact Hr | reflexivity]
      | lia]. }
  destruct Hs as (Hs & Hv').
  rewrite !reflectedDimension_in_range by exact Hs.
  split; [reflexivity | exact Hv'].
Qed.

(** The gift code with size 500 on the recording encoder. *)
Lemma canvas_keeps_a_size_in_range_witness :
  isBlank giftCode = false
  /\ Z.of_nat (List.length giftCode) <= 2953
  /\ arrayIncludes validLevels (levelOption (withSize (Int 500))) = true
  /\ has2dContext browser = true
  /\ (forall n, size (withSize (Int 500)) = Some (Int n) -> 0 <= n < 2 ^ 31)
  /\ exists canvas,
       generateQRCode Recorder browser (VString giftCode)
         (withSize (Int 500))
       = Return canvas
       /\ canvasHeight canvas = 500
       /\ canvasWidth canvas = 500.
Proof.
  assert (H1 : isBlank giftCode = false) by reflexivity.
  assert (H2 : Z.of_nat (List.length giftCode) <= 2953)
    by (vm_compute; discriminate).
  assert (H3 : arrayIncludes validLevels (levelOption (withSize (Int 500)))
               = true) by reflexivity.
  assert (H4 : has2dContext browser = true) by reflexivity.
  assert (H5 : forall n, size (withSize (Int 500)) = Some (Int n) ->
                         0 <= n < 2 ^ 31).
  { intros n E. inversion E; subst.
    split; [discriminate | reflexivity]. }
  repeat (split; [assumption|]).
  destruct (canvas_keeps_a_size_in_range Recorder browser giftCode
              (withSize (Int 500))
              {| typeNumber := Some 1; errorCorrectLevel := Some 0;
                 dataList := [giftCode]; made := true |}
              H1 H2 H3 eq_refl H4 H5) as (canvas & E & Hh & Hw).
  exists canvas. split; [exact E|]. simpl in Hw.
  split; [rewrite Hh; exact Hw | exact Hw].
Defined.
